(** * gpredict, [src/sat-data.c]: reading and initialising satellite data

    A shallow embedding of [sat_data_read] and [sat_data_init].

    - A C [double] is a binary64 value: Rocq's primitive [float], whose
      operations are the IEEE 754 ones the compiled program executes.
    - [gint], [guint] and [long] are integers in [Z]; conversions from
      [double] are written out.
    - The [FILE] stream is the list of characters still to be read, and a
      [gchar] array is a list of characters, terminator and stale tail
      included.
    - Everything the file calls but does not define (the SGP4/SDP4 library,
      the TLE validator, the lookup service, glib and libm functions, the
      header's constants) is a field of the [Collaborators] interface.
    - The calls made on the collaborators are recorded, in order, in a
      trace; a loop on doubles that need not terminate consumes fuel. *)

From Stdlib Require Import ZArith List Bool Ascii String Lia.
From Stdlib Require Import Floats.
Import ListNotations.
Open Scope Z_scope.

(** ** C numbers *)

Module CNum.

(** [double] as the kernel's binary64. *)
Definition double := float.

Definition LONG_MIN : Z := - 2 ^ 63.
Definition LONG_MAX : Z := 2 ^ 63 - 1.
Definition UINT_MOD : Z := 2 ^ 32.

(** The integer obtained by discarding the fractional part (rounding
    toward zero) of a finite double; [None] for NaN and the infinities. *)
Definition trunc_Z (x : double) : option Z :=
  match Prim2SF x with
  | S754_zero _ => Some 0
  | S754_finite s m e =>
      let a := if 0 <=? e then Z.shiftl (Zpos m) e
               else Z.shiftr (Zpos m) (- e) in
      Some (if s then - a else a)
  | S754_infinity _ | S754_nan => None
  end.

(** [(long) x].  C leaves the conversion undefined when the truncated
    value does not fit; the value taken here is the one the x86-64
    conversion instruction delivers in that case, [LONG_MIN]. *)
Definition long_of_double (x : double) : Z :=
  match trunc_Z x with
  | Some z => if (LONG_MIN <=? z) && (z <=? LONG_MAX) then z else LONG_MIN
  | None => LONG_MIN
  end.

(** [(guint) x]: the 64-bit conversion reduced to 32 bits. *)
Definition guint_of_double (x : double) : Z :=
  long_of_double x mod UINT_MOD.

(** The usual arithmetic conversion of a [gint] compared with a [guint]. *)
Definition guint_of_gint (n : Z) : Z := n mod UINT_MOD.

(** Arithmetic on [long], wrap-around written out. *)
Definition wrap_long (z : Z) : Z :=
  (z - LONG_MIN) mod 2 ^ 64 + LONG_MIN.

(** An integer converted to [double] (round to nearest, ties to even). *)
Definition double_of_Z (z : Z) : double :=
  SF2Prim (binary_normalize prec emax z 0 false).

(** libm's [floor]: the largest integral double not above [x]; NaN, the
    infinities, the zeros and doubles without fractional bits are
    returned as they are. *)
Definition floor (x : double) : double :=
  match Prim2SF x with
  | S754_finite s m e =>
      if 0 <=? e then x
      else
        let q := Z.shiftr (Zpos m) (- e) in
        if s then
          let c := if Z.shiftl q (- e) =? Zpos m then q else q + 1 in
          (- double_of_Z c)%float
        else double_of_Z q
  | _ => x
  end.

End CNum.
Import CNum.

(** ** C strings and [fgets] *)

Module CStdio.

Definition NUL : ascii := Ascii.zero.
Definition newline : ascii := "010"%char.

(** A C string held in a character array: the characters before the
    first NUL. *)
Fixpoint cstr (a : list ascii) : string :=
  match a with
  | [] => EmptyString
  | c :: a' => if Ascii.eqb c NUL then EmptyString else String c (cstr a')
  end.

(** A stream opened for reading: what is left to read. *)
Definition FILE := list ascii.

(** The characters one [fgets] call takes: at most [n], up to and
    including the first newline. *)
Fixpoint fgets_chars (n : nat) (fp : FILE) : list ascii * FILE :=
  match n, fp with
  | O, _ => ([], fp)
  | S _, [] => ([], [])
  | S n', c :: fp' =>
      if Ascii.eqb c newline then ([c], fp')
      else let (l, r) := fgets_chars n' fp' in (c :: l, r)
  end.

(** [fgets (s, size, fp)]: [None] is the NULL returned at end of file,
    the array being left as it was; otherwise the array receives the
    characters read and a terminator, and keeps what lay beyond them. *)
Definition fgets (s : list ascii) (size : nat) (fp : FILE)
  : option (list ascii) * FILE :=
  match fgets_chars (size - 1) fp with
  | ([], _) => (None, fp)
  | (l, fp') => (Some (l ++ NUL :: skipn (S (List.length l)) s), fp')
  end.

End CStdio.
Import CStdio.

(** ** The structures of [sgp4sdp4.h] and [sat-data.h]

    The headers are not part of this file; the records list the members
    [sat-data.c] names. *)

(** [vector_t]: three components and the magnitude. *)
Record vector_t := mk_vector {
  v_x : double; v_y : double; v_z : double; v_w : double
}.

(** [geodetic_t]. *)
Record geodetic_t := mk_geodetic {
  geo_lat : double; geo_lon : double; geo_alt : double; geo_theta : double
}.

(** [obs_set_t]: the topocentric result of [Calculate_Obs]. *)
Record obs_set_t := mk_obs_set {
  obs_az : double; obs_el : double; obs_range : double;
  obs_range_rate : double
}.

(** [qth_t]: the observer; latitude and longitude in degrees, altitude a
    [gint] in metres. *)
Record qth_t := mk_qth {
  qth_lat : double; qth_lon : double; qth_alt : Z
}.

(** [tle_t]: the element set. *)
Record tle_t := mk_tle {
  epoch : double; epoch_year : Z; epoch_day : Z; epoch_fod : double;
  xndt2o : double; xndd6o : double; bstar : double; xincl : double;
  xnodeo : double; eo : double; omegao : double; xmo : double;
  xno : double; catnr : Z; elset : Z; revnum : Z;
  sat_name : list ascii; idesg : list ascii; status : Z;
  xincl1 : double; omegao1 : double
}.

(** [sat_t].  [priv] stands for the members this file never names: the
    propagators' coefficient blocks ([sgps], [dps], [deep_arg]), which
    [select_ephemeris], [SGP4] and [SDP4] own. *)
Record sat_t := mk_sat {
  tle : tle_t; flags : Z; priv : list double;
  pos : vector_t; vel : vector_t;
  jul_epoch : double; jul_utc : double; tsince : double;
  aos : double; los : double;
  az : double; el : double; range : double; range_rate : double;
  ra : double; dec : double; ssplat : double; ssplon : double;
  alt : double; velo : double; ma : double; footprint : double;
  phase : double; orbit : Z; otype : Z
}.

(** [gchar tle_str[3][80]]. *)
Record tle_buf := mk_tle_buf {
  line0 : list ascii; line1 : list ascii; line2 : list ascii
}.

(** *** Assignments to single members *)

Definition set_tle (s : sat_t) (t : tle_t) : sat_t :=
  mk_sat t (flags s) (priv s) (pos s) (vel s)
    (jul_epoch s) (jul_utc s) (tsince s) (aos s) (los s)
    (az s) (el s) (range s) (range_rate s) (ra s) (dec s) (ssplat s)
    (ssplon s) (alt s) (velo s) (ma s) (footprint s) (phase s)
    (orbit s) (otype s).

Definition set_flags (s : sat_t) (f : Z) : sat_t :=
  mk_sat (tle s) f (priv s) (pos s) (vel s)
    (jul_epoch s) (jul_utc s) (tsince s) (aos s) (los s)
    (az s) (el s) (range s) (range_rate s) (ra s) (dec s) (ssplat s)
    (ssplon s) (alt s) (velo s) (ma s) (footprint s) (phase s)
    (orbit s) (otype s).

Definition set_pos (s : sat_t) (p : vector_t) : sat_t :=
  mk_sat (tle s) (flags s) (priv s) p (vel s)
    (jul_epoch s) (jul_utc s) (tsince s) (aos s) (los s)
    (az s) (el s) (range s) (range_rate s) (ra s) (dec s) (ssplat s)
    (ssplon s) (alt s) (velo s) (ma s) (footprint s) (phase s)
    (orbit s) (otype s).

Definition set_vel (s : sat_t) (v : vector_t) : sat_t :=
  mk_sat (tle s) (flags s) (priv s) (pos s) v
    (jul_epoch s) (jul_utc s) (tsince s) (aos s) (los s)
    (az s) (el s) (range s) (range_rate s) (ra s) (dec s) (ssplat s)
    (ssplon s) (alt s) (velo s) (ma s) (footprint s) (phase s)
    (orbit s) (otype s).

Definition set_jul_epoch (s : sat_t) (j : double) : sat_t :=
  mk_sat (tle s) (flags s) (priv s) (pos s) (vel s)
    j (jul_utc s) (tsince s) (aos s) (los s)
    (az s) (el s) (range s) (range_rate s) (ra s) (dec s) (ssplat s)
    (ssplon s) (alt s) (velo s) (ma s) (footprint s) (phase s)
    (orbit s) (otype s).

Definition set_velo (s : sat_t) (d : double) : sat_t :=
  mk_sat (tle s) (flags s) (priv s) (pos s) (vel s)
    (jul_epoch s) (jul_utc s) (tsince s) (aos s) (los s)
    (az s) (el s) (range s) (range_rate s) (ra s) (dec s) (ssplat s)
    (ssplon s) (alt s) d (ma s) (footprint s) (phase s)
    (orbit s) (otype s).

Definition set_otype (s : sat_t) (o : Z) : sat_t :=
  mk_sat (tle s) (flags s) (priv s) (pos s) (vel s)
    (jul_epoch s) (jul_utc s) (tsince s) (aos s) (los s)
    (az s) (el s) (range s) (range_rate s) (ra s) (dec s) (ssplat s)
    (ssplon s) (alt s) (velo s) (ma s) (footprint s) (phase s)
    (orbit s) o.

(** ** The trace of collaborator calls *)

Inductive log_level := SAT_LOG_LEVEL_ERROR | SAT_LOG_LEVEL_DEBUG.

(** One entry per call, with the argument the callee received. *)
Inductive event :=
| Ev_log (level : log_level)
| Ev_Get_Next_Tle_Set (line : tle_buf)
| Ev_select_ephemeris (s : sat_t)
| Ev_sat_data_init (s : sat_t) (qth : option qth_t)
| Ev_SGP4 (s : sat_t) (t : double)
| Ev_SDP4 (s : sat_t) (t : double).

(** A computation yields a value and the calls it made, or runs out of
    fuel ([None]). *)
Definition M (A : Type) : Type := option (A * list event).

Definition ret {A} (a : A) : M A := Some (a, []).

Definition bind {A B} (m : M A) (k : A -> M B) : M B :=
  match m with
  | None => None
  | Some (a, tr) =>
      match k a with
      | None => None
      | Some (b, tr') => Some (b, tr ++ tr')
      end
  end.

Definition emit (e : event) : M unit := Some (tt, [e]).

Definition out_of_fuel {A} : M A := None.

Declare Scope m_scope.
Delimit Scope m_scope with M.
Notation "x <- m ;; k" := (bind m (fun x => k))
  (at level 61, m at next level, right associativity) : m_scope.
Notation "m ;;; k" := (bind m (fun _ => k))
  (at level 61, right associativity) : m_scope.
Open Scope m_scope.

(** The state a propagator was called on, for the entries that are
    propagator calls. *)
Definition propagated_state (e : event) : option sat_t :=
  match e with
  | Ev_SGP4 s _ | Ev_SDP4 s _ => Some s
  | _ => None
  end.

(** [a] occurs in the trace at an earlier position than [b]. *)
Definition precedes (a b : event) (tr : list event) : Prop :=
  exists i j, (i < j)%nat /\ nth_error tr i = Some a /\ nth_error tr j = Some b.

(** ** What [sat-data.c] calls and does not define *)

Class Collaborators := {
  (** constants of [sgp4sdp4.h] *)
  de2ra : double;
  pi : double;
  twopi : double;
  xmnpda : double;
  ae : double;
  xkmper : double;
  DEEP_SPACE_EPHEM_FLAG : Z;
  (** the SGP4/SDP4 library; a procedure returns the objects it was given
      pointers to, as it leaves them (those the caller reads again: the
      line buffer after [Get_Next_Tle_Set] and the observer after
      [Calculate_Obs] are not); [obs_set] and [sat_geodetic] are
      uninitialised when passed and are results only *)
  Get_Next_Tle_Set : tle_buf -> tle_t -> Z * tle_t;
  select_ephemeris : sat_t -> sat_t;
  SGP4 : sat_t -> double -> sat_t;
  SDP4 : sat_t -> double -> sat_t;
  Convert_Sat_State : vector_t -> vector_t -> vector_t * vector_t;
  Magnitude : vector_t -> vector_t;
  Calculate_Obs :
    double -> vector_t -> vector_t -> geodetic_t ->
    vector_t * vector_t * obs_set_t;
  Calculate_LatLonAlt : double -> vector_t -> vector_t * geodetic_t;
  Julian_Date_of_Epoch : double -> double;
  Degrees : double -> double;
  (** [orbit-tools.h] *)
  get_orbit_type : sat_t -> Z;
  (** [tle-lookup.h]: [None] is the NULL file name *)
  tle_lookup : Z -> option string;
  (** glib, libc and libm; [fopen] gives the stream of a readable file *)
  g_get_home_dir : string;
  G_DIR_SEPARATOR_S : string;
  fopen : string -> option FILE;
  g_ascii_strtod : string -> double;
  acos : double -> double
}.

Section SatData.

Context {C : Collaborators}.

Open Scope float_scope.

(** *** [sat_data_init] *)

(** [while (sat_geodetic.lon < -pi) sat_geodetic.lon += twopi;] *)
Fixpoint lon_raise (fuel : nat) (lon : double) : M double :=
  match fuel with
  | O => out_of_fuel
  | S fuel' =>
      if lon <? - pi then lon_raise fuel' (lon + twopi) else ret lon
  end.

(** [while (sat_geodetic.lon > (pi)) sat_geodetic.lon -= twopi;] *)
Fixpoint lon_lower (fuel : nat) (lon : double) : M double :=
  match fuel with
  | O => out_of_fuel
  | S fuel' =>
      if pi <? lon then lon_lower fuel' (lon - twopi) else ret lon
  end.

(** The two loops in sequence. *)
Definition normalize_lon (fuel : nat) (lon : double) : M double :=
  lon <- lon_raise fuel lon ;;
  lon_lower fuel lon.

(** The observer handed to [Calculate_Obs]. *)
Definition observer_geodetic (qth : option qth_t) : geodetic_t :=
  match qth with
  | Some q =>
      {| geo_lon := qth_lon q * de2ra;
         geo_lat := qth_lat q * de2ra;
         geo_alt := double_of_Z (qth_alt q) / 1000;
         geo_theta := 0 |}
  | None =>
      {| geo_lon := 0; geo_lat := 0; geo_alt := 0; geo_theta := 0 |}
  end.

(** [sat->flags & DEEP_SPACE_EPHEM_FLAG], as a condition. *)
Definition deep_space (sat : sat_t) : bool :=
  negb (Z.land (flags sat) DEEP_SPACE_EPHEM_FLAG =? 0)%Z.

(** [if (sat->flags & DEEP_SPACE_EPHEM_FLAG) SDP4 (sat, 0.0);
     else SGP4 (sat, 0.0);] *)
Definition propagate_at_epoch (sat : sat_t) : M sat_t :=
  if deep_space sat
  then emit (Ev_SDP4 sat 0) ;;; ret (SDP4 sat 0)
  else emit (Ev_SGP4 sat 0) ;;; ret (SGP4 sat 0).

(** [Convert_Sat_State (&sat->pos, &sat->vel); Magnitude (&sat->vel);
     sat->velo = sat->vel.w;] *)
Definition scale_state (sat : sat_t) : sat_t :=
  let '(p, v) := Convert_Sat_State (pos sat) (vel sat) in
  let sat := set_vel (set_pos sat p) v in
  let sat := set_vel sat (Magnitude (vel sat)) in
  set_velo sat (v_w (vel sat)).

(** The orbit number as the source computes it, [age] being the local
    variable assigned just before. *)
Definition orbit_number (age : double) (t : tle_t) : Z :=
  let revs :=
    floor ((xno t * xmnpda / twopi + age * bstar t * ae) * age
           + xmo t / twopi) in
  wrap_long (long_of_double revs + revnum t - 1)%Z.

(** The assignments from [sat->az] to [sat->orbit]. *)
Definition store_results (s : sat_t) (obs_set : obs_set_t)
    (sat_geodetic : geodetic_t) : sat_t :=
  let age := 0 in
  mk_sat (tle s) (flags s) (priv s) (pos s) (vel s)
    (jul_epoch s) (jul_utc s) (tsince s) (aos s) (los s)
    (Degrees (obs_az obs_set))
    (Degrees (obs_el obs_set))
    (obs_range obs_set)
    (obs_range_rate obs_set)
    (ra s) (dec s)
    (Degrees (geo_lat sat_geodetic))
    (Degrees (geo_lon sat_geodetic))
    (geo_alt sat_geodetic)
    (velo s)
    (Degrees (phase s) * (256 / 360))
    (2 * xkmper * acos (xkmper / v_w (pos s)))
    (phase s)
    (orbit_number age (tle s))
    (otype s).

(** [sat] is the structure behind the pointer, which is not NULL (for
    NULL the function returns at once, and [sat_data_read] has
    dereferenced it before the call); [qth] is [None] for NULL.  [fuel]
    bounds the iterations of each longitude loop. *)
Definition sat_data_init (fuel : nat) (sat : sat_t) (qth : option qth_t)
  : M sat_t :=
  emit (Ev_sat_data_init sat qth) ;;;
  let jul_utc := Julian_Date_of_Epoch (epoch (tle sat)) in
  let sat := set_jul_epoch sat jul_utc in
  let obs_geodetic := observer_geodetic qth in
  sat <- propagate_at_epoch sat ;;
  let sat := scale_state sat in
  let '(p, v, obs_set) :=
    Calculate_Obs jul_utc (pos sat) (vel sat) obs_geodetic in
  let sat := set_vel (set_pos sat p) v in
  let '(p, sat_geodetic) := Calculate_LatLonAlt jul_utc (pos sat) in
  let sat := set_pos sat p in
  lon <- normalize_lon fuel (geo_lon sat_geodetic) ;;
  let sat_geodetic :=
    mk_geodetic (geo_lat sat_geodetic) lon (geo_alt sat_geodetic)
      (geo_theta sat_geodetic) in
  let sat := store_results sat obs_set sat_geodetic in
  ret (set_otype sat (get_orbit_type sat)).

(** *** [sat_data_read] *)

(** The block commented "initialise variable fields". *)
Definition init_variable_fields (s : sat_t) : sat_t :=
  mk_sat (tle s) (flags s) (priv s) (pos s) (vel s)
    (jul_epoch s) 0 0 0 0
    0 0 0 0 0 0 0 0 0 0 0 0 0
    (orbit s) (otype s).

(** [catstr]: bytes 2 to 6 of the second line, then a terminator. *)
Definition catstr_of (line : list ascii) : list ascii :=
  map (fun i => nth i line NUL) [2; 3; 4; 5; 6]%nat ++ [NUL].

(** [catnr = (guint) g_ascii_strtod (catstr, NULL)]. *)
Definition catnr_of (tle_str : tle_buf) : Z :=
  guint_of_double (g_ascii_strtod (cstr (catstr_of (line1 tle_str)))).

(** [catnr == catnum] for one content of [tle_str]. *)
Definition matches (catnum : Z) (tle_str : tle_buf) : bool :=
  (catnr_of tle_str =? guint_of_gint catnum)%Z.

(** [fgets] into one row of [tle_str]: the row changes only when
    something was read. *)
Definition fgets_row (row : list ascii) (fp : FILE) : list ascii * FILE :=
  match fgets row 80 fp with
  | (Some row', fp') => (row', fp')
  | (None, fp') => (row, fp')
  end.

(** What the body does once [catnr == catnum]; the result is
    [errorcode] and [*sat] as the body leaves them. *)
Definition load_record (fuel : nat) (tle_str : tle_buf) (errorcode : Z)
    (sat : sat_t) : M (Z * sat_t) :=
  emit (Ev_log SAT_LOG_LEVEL_DEBUG) ;;;
  emit (Ev_Get_Next_Tle_Set tle_str) ;;;
  let '(rc, t) := Get_Next_Tle_Set tle_str (tle sat) in
  let sat := set_tle sat t in
  if negb (rc =? 1)%Z then
    emit (Ev_log SAT_LOG_LEVEL_ERROR) ;;;
    ret (2%Z, sat)
  else
    emit (Ev_log SAT_LOG_LEVEL_DEBUG) ;;;
    let sat := set_flags sat 0%Z in
    emit (Ev_select_ephemeris sat) ;;;
    let sat := select_ephemeris sat in
    let sat := init_variable_fields sat in
    sat <- sat_data_init fuel sat None ;;
    ret (errorcode, sat).

(** The [while] loop; [k] bounds the iterations and is never exhausted
    when it exceeds the length of the stream.  [errorcode] is the
    local variable, [0] on entry. *)
Fixpoint read_loop (k : nat) (fuel : nat) (catnum : Z) (fp : FILE)
    (tle_str : tle_buf) (found : bool) (errorcode : Z) (sat : sat_t)
  : M (Z * sat_t) :=
  match k with
  | O => out_of_fuel
  | S k' =>
      match fgets (line0 tle_str) 80 fp with
      | (None, _) => ret (errorcode, sat)
      | (Some row0, fp) =>
          if found then ret (errorcode, sat)
          else
            let (row1, fp) := fgets_row (line1 tle_str) fp in
            let (row2, fp) := fgets_row (line2 tle_str) fp in
            let tle_str := mk_tle_buf row0 row1 row2 in
            if matches catnum tle_str then
              r <- load_record fuel tle_str errorcode sat ;;
              let '(errorcode, sat) := r in
              read_loop k' fuel catnum fp tle_str true errorcode sat
            else
              read_loop k' fuel catnum fp tle_str found errorcode sat
      end
  end.

(** The path handed to [fopen]. *)
Definition tle_path (filename : string) : string :=
  (g_get_home_dir ++ G_DIR_SEPARATOR_S ++ ".gpredict2"
     ++ G_DIR_SEPARATOR_S ++ "tle" ++ G_DIR_SEPARATOR_S ++ filename)%string.

(** The result is the returned code and [*sat] on return.  [tle_str0]
    is what the uninitialised array [tle_str] holds on entry; [fuel] is
    passed on to [sat_data_init]. *)
Definition sat_data_read (fuel : nat) (tle_str0 : tle_buf) (catnum : Z)
    (sat : sat_t) : M (Z * sat_t) :=
  match tle_lookup catnum with
  | None =>
      emit (Ev_log SAT_LOG_LEVEL_ERROR) ;;;
      ret (1%Z, sat)
  | Some filename =>
      match fopen (tle_path filename) with
      | Some fp =>
          read_loop (S (List.length fp)) fuel catnum fp tle_str0 false
            0%Z sat
      | None =>
          emit (Ev_log SAT_LOG_LEVEL_ERROR) ;;;
          ret (3%Z, sat)
      end
  end.

(** *** Notions the properties are stated with *)

(** The propagator the dispatch selects, and the trace entry of the
    call. *)
Definition propagator (sat : sat_t) : sat_t :=
  if deep_space sat then SDP4 sat 0 else SGP4 sat 0.

Definition propagation_event (sat : sat_t) : event :=
  if deep_space sat then Ev_SDP4 sat 0 else Ev_SGP4 sat 0.

(** The state [sat_data_init] stores its results into, the observer set
    and the sub-satellite point before the longitude is normalised. *)
Definition scaled (sat : sat_t) : sat_t :=
  scale_state
    (propagator (set_jul_epoch sat (Julian_Date_of_Epoch (epoch (tle sat))))).

Definition observed (sat : sat_t) (qth : option qth_t)
  : vector_t * vector_t * obs_set_t :=
  Calculate_Obs (Julian_Date_of_Epoch (epoch (tle sat)))
    (pos (scaled sat)) (vel (scaled sat)) (observer_geodetic qth).

Definition located (sat : sat_t) (qth : option qth_t)
  : vector_t * geodetic_t :=
  Calculate_LatLonAlt (Julian_Date_of_Epoch (epoch (tle sat)))
    (fst (fst (observed sat qth))).

Definition initialised (sat : sat_t) (qth : option qth_t) (lon : double)
  : sat_t :=
  let co := observed sat qth in
  let cl := located sat qth in
  let s := set_pos (set_vel (set_pos (scaled sat) (fst (fst co)))
                      (snd (fst co))) (fst cl) in
  let g := mk_geodetic (geo_lat (snd cl)) lon (geo_alt (snd cl))
             (geo_theta (snd cl)) in
  let r := store_results s (snd co) g in
  set_otype r (get_orbit_type r).

(** The successive contents of [tle_str] the loop of [sat_data_read]
    examines: one per pass, each made of three [fgets] calls. *)
Fixpoint tle_groups (k : nat) (fp : FILE) (tle_str : tle_buf)
  : list tle_buf :=
  match k with
  | O => []
  | S k' =>
      match fgets (line0 tle_str) 80 fp with
      | (None, _) => []
      | (Some row0, fp) =>
          let (row1, fp) := fgets_row (line1 tle_str) fp in
          let (row2, fp) := fgets_row (line2 tle_str) fp in
          let tle_str := mk_tle_buf row0 row1 row2 in
          tle_str :: tle_groups k' fp tle_str
      end
  end.

(** The four kinds of run, with result and trace. *)
Inductive run_shape (fuel : nat) (sat : sat_t)
  : Z * sat_t -> list event -> Prop :=
| run_unreadable code :
    code = 1%Z \/ code = 3%Z ->
    run_shape fuel sat (code, sat) [Ev_log SAT_LOG_LEVEL_ERROR]
| run_no_match :
    run_shape fuel sat (0%Z, sat) []
| run_invalid g rc t :
    Get_Next_Tle_Set g (tle sat) = (rc, t) -> rc <> 1%Z ->
    run_shape fuel sat (2%Z, set_tle sat t)
      [Ev_log SAT_LOG_LEVEL_DEBUG; Ev_Get_Next_Tle_Set g;
       Ev_log SAT_LOG_LEVEL_ERROR]
| run_valid g t s' e :
    Get_Next_Tle_Set g (tle sat) = (1%Z, t) ->
    sat_data_init fuel
      (init_variable_fields
         (select_ephemeris (set_flags (set_tle sat t) 0%Z))) None
    = Some (s', [Ev_sat_data_init
                   (init_variable_fields
                      (select_ephemeris (set_flags (set_tle sat t) 0%Z)))
                   None; e]) ->
    e = propagation_event
          (set_jul_epoch
             (init_variable_fields
                (select_ephemeris (set_flags (set_tle sat t) 0%Z)))
             (Julian_Date_of_Epoch
                (epoch (tle (select_ephemeris
                               (set_flags (set_tle sat t) 0%Z)))))) ->
    run_shape fuel sat (0%Z, s')
      [Ev_log SAT_LOG_LEVEL_DEBUG; Ev_Get_Next_Tle_Set g;
       Ev_log SAT_LOG_LEVEL_DEBUG;
       Ev_select_ephemeris (set_flags (set_tle sat t) 0%Z);
       Ev_sat_data_init
         (init_variable_fields
            (select_ephemeris (set_flags (set_tle sat t) 0%Z))) None;
       e].

(** What holds of a propagator call [e], made on the state [s], in the
    trace [tr] of a read into [sat]: the validator accepted an element set
    [t]; [select_ephemeris] was called after it, on a state holding [t]
    with its flags cleared; no propagator was called before that; and [s]
    carries the flags, elements and coefficient blocks that call
    produced, the flag test of the dispatch being made on them. *)
Definition freshly_selected (sat : sat_t) (tr : list event) (e : event)
    (s : sat_t) : Prop :=
  exists line t,
    Get_Next_Tle_Set line (tle sat) = (1%Z, t) /\
    let s0 := set_flags (set_tle sat t) 0%Z in
    let s1 := select_ephemeris s0 in
    flags s0 = 0%Z /\ tle s0 = t /\
    precedes (Ev_Get_Next_Tle_Set line) (Ev_select_ephemeris s0) tr /\
    precedes (Ev_select_ephemeris s0) e tr /\
    (forall e', precedes e' (Ev_select_ephemeris s0) tr ->
                propagated_state e' = None) /\
    s = set_jul_epoch (init_variable_fields s1)
          (Julian_Date_of_Epoch (epoch (tle s1))) /\
    flags s = flags s1 /\ tle s = tle s1 /\ priv s = priv s1 /\
    e = propagation_event s.


End SatData.

(** ** The constants, as [sgp4sdp4.h] defines them

    Written in hexadecimal: the doubles a compiler makes of the header's
    decimal literals. *)

Module Header.

Open Scope float_scope.

Definition de2ra_h : double := 0x1.1df46a1fae711p-6.   (* 1.74532925E-2 *)
Definition pi_h : double := 0x1.921fb54442d28p+1.      (* 3.1415926535898 *)
Definition twopi_h : double := 0x1.921fb54442d28p+2.   (* 6.2831853071796 *)
Definition xmnpda_h : double := 1440.                  (* 1.44E3 *)
Definition ae_h : double := 1.                         (* 1.0 *)
Definition xkmper_h : double := 0x1.8ea228f5c28f6p+12. (* 6.378135E3 *)
Definition secday_h : double := 86400.                 (* 8.64E4 *)
Definition DEEP_SPACE_EPHEM_FLAG_h : Z := 64.          (* 0x000040 *)

End Header.

(** ** A concrete set of collaborators

    The constants are those of the header.  [Degrees],
    [Magnitude], [Convert_Sat_State] and [select_ephemeris] follow the
    library; the propagators, the validator, the geometry routines and the
    file system are small stand-ins, enough to run the two functions. *)

Module Demo.

Import Header.
Open Scope float_scope.
Set Warnings "-inexact-float".

Definition scale (k : double) (v : vector_t) : vector_t :=
  mk_vector (k * v_x v) (k * v_y v) (k * v_z v) (k * v_w v).

Definition d_Convert_Sat_State (p v : vector_t) : vector_t * vector_t :=
  (scale xkmper_h p, scale (xkmper_h * xmnpda_h / secday_h) v).

Definition d_Magnitude (v : vector_t) : vector_t :=
  mk_vector (v_x v) (v_y v) (v_z v)
    (sqrt (v_x v * v_x v + v_y v * v_y v + v_z v * v_z v)).

Definition d_Degrees (x : double) : double := x / de2ra_h.

(** The deep-space bit is set when the period is at least 225 minutes. *)
Definition d_select_ephemeris (s : sat_t) : sat_t :=
  if 0.15625 <=? twopi_h / xno (tle s) / xmnpda_h
  then set_flags s (Z.lor (flags s) DEEP_SPACE_EPHEM_FLAG_h)
  else set_flags s (Z.land (flags s) (Z.lnot DEEP_SPACE_EPHEM_FLAG_h)).

(** Stand-in propagators: a circular orbit in the x-y plane; the phase
    is the mean anomaly advanced by the mean motion. *)
Definition d_propagate (radius : double) (s : sat_t) (t : double) : sat_t :=
  mk_sat (tle s) (flags s) (priv s)
    (mk_vector radius 0 0 radius) (mk_vector 0 0.0625 0 0.0625)
    (jul_epoch s) (jul_utc s) t (aos s) (los s)
    (az s) (el s) (range s) (range_rate s) (ra s) (dec s) (ssplat s)
    (ssplon s) (alt s) (velo s) (ma s) (footprint s)
    (xmo (tle s) + xno (tle s) * t)
    (orbit s) (otype s).

Definition d_SGP4 := d_propagate 1.0625.
Definition d_SDP4 := d_propagate 6.5.

(** Stand-in geometry: azimuth and elevation are the observer's
    coordinates, a quarter turn and an eighth of a turn added; the range
    is the distance from the Earth's centre; the sub-satellite longitude
    is the date, negated. *)
Definition d_Calculate_Obs (time : double) (p v : vector_t)
    (g : geodetic_t) : vector_t * vector_t * obs_set_t :=
  (p, v, mk_obs_set (geo_lon g + 0.25 * twopi_h) (geo_lat g + 0.125 * twopi_h)
           (v_w p + geo_alt g) (v_y v)).

Definition d_Calculate_LatLonAlt (time : double) (p : vector_t)
  : vector_t * geodetic_t :=
  (p, mk_geodetic 0.5 (- time) (v_w p - xkmper_h) 0).

Definition d_Julian_Date_of_Epoch (e : double) : double := e.

Definition d_acos (x : double) : double := 0x1.921fb54442d28p+0 - x.

Definition d_get_orbit_type (s : sat_t) : Z := 1.

(** Stand-in for [g_ascii_strtod]: blanks, then decimal digits. *)
Definition digit_of (c : ascii) : option Z :=
  let n := Z.of_nat (nat_of_ascii c) in
  if ((48 <=? n) && (n <=? 57))%Z then Some (n - 48)%Z else None.

Fixpoint parse_digits (s : string) (acc : Z) : Z :=
  match s with
  | EmptyString => acc
  | String c s' =>
      match digit_of c with
      | Some d => parse_digits s' (10 * acc + d)%Z
      | None => acc
      end
  end.

Fixpoint skip_blanks (s : string) : string :=
  match s with
  | String c s' => if Ascii.eqb c " "%char then skip_blanks s' else s
  | EmptyString => s
  end.

Definition d_g_ascii_strtod (s : string) : double :=
  double_of_Z (parse_digits (skip_blanks s) 0).

(** The elements of the second record of [stations] below, angles in
    radians and the mean motion in radians per minute. *)
Definition iss_tle (name : list ascii) : tle_t :=
  mk_tle 8264.51782528 2008 264 0.51782528
    0 0 (-0.000011606) 0.90131 4.31904 0.0006703 2.27829
    0x1.6b0f8703ba654p+2 0x1.18f913091c6a1p-4
    25544 292 56353 name (list_ascii_of_string "98067A") 0
    0.90131 2.27829.

(** Stand-in validator: the data lines must start with '1' and '2'.
    The name is copied in either case. *)
Definition d_Get_Next_Tle_Set (line : tle_buf) (t : tle_t) : Z * tle_t :=
  let name := list_ascii_of_string (cstr (line0 line)) in
  if Ascii.eqb (nth 0 (line1 line) NUL) "1"
     && Ascii.eqb (nth 0 (line2 line) NUL) "2"
  then (1%Z, iss_tle name)
  else
    ((-2)%Z,
     mk_tle (epoch t) (epoch_year t) (epoch_day t) (epoch_fod t)
       (xndt2o t) (xndd6o t) (bstar t) (xincl t) (xnodeo t) (eo t)
       (omegao t) (xmo t) (xno t) (catnr t) (elset t) (revnum t)
       name (idesg t) (status t) (xincl1 t) (omegao1 t)).

Definition stations : string :=
  "NOAA 18
1 28654U 05018A   08264.49373155 -.00000043  00000-0  00000+0 0  5231
2 28654  98.8740 208.5273 0013479 310.7561  49.2444 14.11047857171610
ISS (ZARYA)
1 25544U 98067A   08264.51782528 -.00002182  00000-0 -11606-4 0  2927
2 25544  51.6416 247.4627 0006703 130.5360 325.0288 15.72125391563537
".

Definition damaged : string :=
  "ISS (ZARYA)
1 25544U 98067A   08264.51782528 -.00002182  00000-0 -11606-4 0  2927
3 25544  51.6416 247.4627 0006703 130.5360 325.0288 15.72125391563537
".

Definition d_tle_lookup (catnum : Z) : option string :=
  if (catnum =? 25544)%Z then Some "stations.tle"%string
  else if (catnum =? 20580)%Z then Some "stations.tle"%string
  else if (catnum =? 7530)%Z then Some "amateur.tle"%string
  else None.

Definition d_fopen (files : list (string * string)) (path : string)
  : option FILE :=
  match find (fun f => String.eqb (fst f) path) files with
  | Some f => Some (list_ascii_of_string (snd f))
  | None => None
  end.

(** The collaborators over a given set of files. *)
Definition collaborators (files : list (string * string))
  : Collaborators :=
  {| de2ra := de2ra_h; pi := pi_h; twopi := twopi_h;
     xmnpda := xmnpda_h; ae := ae_h; xkmper := xkmper_h;
     DEEP_SPACE_EPHEM_FLAG := DEEP_SPACE_EPHEM_FLAG_h;
     Get_Next_Tle_Set := d_Get_Next_Tle_Set;
     select_ephemeris := d_select_ephemeris;
     SGP4 := d_SGP4; SDP4 := d_SDP4;
     Convert_Sat_State := d_Convert_Sat_State;
     Magnitude := d_Magnitude;
     Calculate_Obs := d_Calculate_Obs;
     Calculate_LatLonAlt := d_Calculate_LatLonAlt;
     Julian_Date_of_Epoch := d_Julian_Date_of_Epoch;
     Degrees := d_Degrees;
     get_orbit_type := d_get_orbit_type;
     tle_lookup := d_tle_lookup;
     g_get_home_dir := "/home/op";
     G_DIR_SEPARATOR_S := "/";
     fopen := d_fopen files;
     g_ascii_strtod := d_g_ascii_strtod;
     acos := d_acos |}.

Definition good_files : list (string * string) :=
  [("/home/op/.gpredict2/tle/stations.tle"%string, stations)].

Definition damaged_files : list (string * string) :=
  [("/home/op/.gpredict2/tle/stations.tle"%string, damaged)].

(** A structure as [g_new0] leaves it, flags and output fields then
    filled with values that a read must overwrite. *)
Definition tle0 : tle_t :=
  mk_tle 0 0 0 0 0 0 0 0 0 0 0 0 0 0 0 0 [] [] 0 0 0.

Definition vec0 : vector_t := mk_vector 0 0 0 0.

Definition sat0 : sat_t :=
  mk_sat tle0 255 [] vec0 vec0 0 0 0 0 0
    7 7 7 7 7 7 7 7 7 7 7 7 7 7 7.

(** What the uninitialised [tle_str] holds. *)
Definition stale : tle_buf :=
  let row := repeat "#"%char 80 in mk_tle_buf row row row.

Definition good : Collaborators := collaborators good_files.

Definition damaged_store : Collaborators := collaborators damaged_files.

(** Structures holding an element set, for [sat_data_init]: the record
    of [stations]; an object on its first revolution (revolution number
    0, mean anomaly 1 radian); and an element set whose date the stand-in
    geometry turns into the longitude [-pi]. *)
Definition with_tle (t : tle_t) : sat_t :=
  mk_sat t 0 [] vec0 vec0 0 0 0 0 0 0 0 0 0 0 0 0 0 0 0 0 0 0 0 0.

Definition iss : sat_t := with_tle (iss_tle (list_ascii_of_string "ISS")).

Definition first_rev_tle : tle_t :=
  mk_tle 8264.5 2008 264 0.5 0 0 0.0001 0.9 4.3 0.001 2.2
    1 0x1.18f913091c6a1p-4 33333 1 0 (list_ascii_of_string "NEW")
    (list_ascii_of_string "08048A") 0 0.9 2.2.

Definition first_rev : sat_t := with_tle first_rev_tle.

Definition antimeridian_tle : tle_t :=
  mk_tle pi_h 2000 3 0.1415926535898 0 0 0.0001 0.9 4.3 0.001 2.2
    1 0x1.18f913091c6a1p-4 33334 1 100 (list_ascii_of_string "EDGE")
    (list_ascii_of_string "00001A") 0 0.9 2.2.

Definition antimeridian : sat_t := with_tle antimeridian_tle.

Set Warnings "inexact-float".

End Demo.

(** ** Notions the further properties are stated with *)

(** Trace entries by kind. *)
Definition is_validation (e : event) : bool :=
  match e with Ev_Get_Next_Tle_Set _ => true | _ => false end.


Definition is_propagation (e : event) : bool :=
  match e with Ev_SGP4 _ _ | Ev_SDP4 _ _ => true | _ => false end.

Definition count (f : event -> bool) (tr : list event) : nat :=
  List.length (filter f tr).


(** A text file of element sets: three lines per record, each ended by
    a newline; a line is plain when it fits a row of [tle_str] with its
    newline and terminator and holds neither of them. *)
Definition text_line (l : list ascii) : list ascii := l ++ [newline].

Definition record_text (r : list ascii * list ascii * list ascii)
  : list ascii :=
  let '(name, l1, l2) := r in text_line name ++ text_line l1 ++ text_line l2.

Definition file_text (rs : list (list ascii * list ascii * list ascii))
  : FILE :=
  List.concat (map record_text rs).

Definition plain_line (l : list ascii) : bool :=
  (List.length l <=? 78)%nat &&
  forallb (fun c => negb (Ascii.eqb c newline) && negb (Ascii.eqb c NUL)) l.

Definition plain_record (r : list ascii * list ascii * list ascii) : bool :=
  let '(name, l1, l2) := r in
  plain_line name && plain_line l1 && plain_line l2.

(** The three C strings a content of [tle_str] holds, and the three a
    record of the file should give. *)
Definition rows_as_strings (g : tle_buf) : string * string * string :=
  (cstr (line0 g), cstr (line1 g), cstr (line2 g)).

Definition record_as_strings (r : list ascii * list ascii * list ascii)
  : string * string * string :=
  let '(name, l1, l2) := r in
  (string_of_list_ascii (text_line name),
   string_of_list_ascii (text_line l1),
   string_of_list_ascii (text_line l2)).

(** The rows of [tle_str] are 80 bytes each. *)
Definition rows_sized (g : tle_buf) : Prop :=
  List.length (line0 g) = 80%nat /\ List.length (line1 g) = 80%nat /\
  List.length (line2 g) = 80%nat.

(** ** The calls of a run, returned or not

    [M] gives its trace only with the value of a run that returns.  [T]
    is the same monad with the trace kept when the fuel runs out: the
    calls made up to that point.  The functions of [SatData] are read
    again in it below, statement for statement. *)

Definition T (A : Type) : Type := list event * option A.

Definition ret_t {A} (a : A) : T A := ([], Some a).

Definition bind_t {A B} (m : T A) (k : A -> T B) : T B :=
  match m with
  | (tr, Some a) => let (tr', b) := k a in (tr ++ tr', b)
  | (tr, None) => (tr, None)
  end.

Definition emit_t (e : event) : T unit := ([e], Some tt).

Definition out_of_fuel_t {A} : T A := ([], None).

(** A computation of [M], taken as it is: used for the longitude loops,
    which call nothing. *)
Definition lift {A} (m : M A) : T A :=
  match m with
  | Some (a, tr) => (tr, Some a)
  | None => ([], None)
  end.

(** What [M] keeps of a run in [T]. *)
Definition returned {A} (t : T A) : M A :=
  match t with
  | (tr, Some a) => Some (a, tr)
  | (_, None) => None
  end.

Declare Scope t_scope.
Delimit Scope t_scope with T.
Notation "x <~ m ;; k" := (bind_t m (fun x => k))
  (at level 61, m at next level, right associativity) : t_scope.
Notation "m ~;; k" := (bind_t m (fun _ => k))
  (at level 61, right associativity) : t_scope.

Section SatDataCalls.

Context {C : Collaborators}.

Open Scope float_scope.
Open Scope t_scope.

Definition propagate_at_epoch_t (sat : sat_t) : T sat_t :=
  if deep_space sat
  then emit_t (Ev_SDP4 sat 0) ~;; ret_t (SDP4 sat 0)
  else emit_t (Ev_SGP4 sat 0) ~;; ret_t (SGP4 sat 0).

Definition sat_data_init_t (fuel : nat) (sat : sat_t) (qth : option qth_t)
  : T sat_t :=
  emit_t (Ev_sat_data_init sat qth) ~;;
  let jul_utc := Julian_Date_of_Epoch (epoch (tle sat)) in
  let sat := set_jul_epoch sat jul_utc in
  let obs_geodetic := observer_geodetic qth in
  sat <~ propagate_at_epoch_t sat ;;
  let sat := scale_state sat in
  let '(p, v, obs_set) :=
    Calculate_Obs jul_utc (pos sat) (vel sat) obs_geodetic in
  let sat := set_vel (set_pos sat p) v in
  let '(p, sat_geodetic) := Calculate_LatLonAlt jul_utc (pos sat) in
  let sat := set_pos sat p in
  lon <~ lift (normalize_lon fuel (geo_lon sat_geodetic)) ;;
  let sat_geodetic :=
    mk_geodetic (geo_lat sat_geodetic) lon (geo_alt sat_geodetic)
      (geo_theta sat_geodetic) in
  let sat := store_results sat obs_set sat_geodetic in
  ret_t (set_otype sat (get_orbit_type sat)).

Definition load_record_t (fuel : nat) (tle_str : tle_buf) (errorcode : Z)
    (sat : sat_t) : T (Z * sat_t) :=
  emit_t (Ev_log SAT_LOG_LEVEL_DEBUG) ~;;
  emit_t (Ev_Get_Next_Tle_Set tle_str) ~;;
  let '(rc, t) := Get_Next_Tle_Set tle_str (tle sat) in
  let sat := set_tle sat t in
  if negb (rc =? 1)%Z then
    emit_t (Ev_log SAT_LOG_LEVEL_ERROR) ~;;
    ret_t (2%Z, sat)
  else
    emit_t (Ev_log SAT_LOG_LEVEL_DEBUG) ~;;
    let sat := set_flags sat 0%Z in
    emit_t (Ev_select_ephemeris sat) ~;;
    let sat := select_ephemeris sat in
    let sat := init_variable_fields sat in
    sat <~ sat_data_init_t fuel sat None ;;
    ret_t (errorcode, sat).

Fixpoint read_loop_t (k : nat) (fuel : nat) (catnum : Z) (fp : FILE)
    (tle_str : tle_buf) (found : bool) (errorcode : Z) (sat : sat_t)
  : T (Z * sat_t) :=
  match k with
  | O => out_of_fuel_t
  | S k' =>
      match fgets (line0 tle_str) 80 fp with
      | (None, _) => ret_t (errorcode, sat)
      | (Some row0, fp) =>
          if found then ret_t (errorcode, sat)
          else
            let (row1, fp) := fgets_row (line1 tle_str) fp in
            let (row2, fp) := fgets_row (line2 tle_str) fp in
            let tle_str := mk_tle_buf row0 row1 row2 in
            if matches catnum tle_str then
              r <~ load_record_t fuel tle_str errorcode sat ;;
              let '(errorcode, sat) := r in
              read_loop_t k' fuel catnum fp tle_str true errorcode sat
            else
              read_loop_t k' fuel catnum fp tle_str found errorcode sat
      end
  end.

Definition sat_data_read_t (fuel : nat) (tle_str0 : tle_buf) (catnum : Z)
    (sat : sat_t) : T (Z * sat_t) :=
  match tle_lookup catnum with
  | None =>
      emit_t (Ev_log SAT_LOG_LEVEL_ERROR) ~;;
      ret_t (1%Z, sat)
  | Some filename =>
      match fopen (tle_path filename) with
      | Some fp =>
          read_loop_t (S (List.length fp)) fuel catnum fp tle_str0 false
            0%Z sat
      | None =>
          emit_t (Ev_log SAT_LOG_LEVEL_ERROR) ~;;
          ret_t (3%Z, sat)
      end
  end.

(** The catalogue number read from columns 3 to 7 of a data line. *)
Definition carries (catnum : Z) (l1 : list ascii) : bool :=
  (guint_of_double (g_ascii_strtod (cstr (catstr_of l1)))
   =? guint_of_gint catnum)%Z.

End SatDataCalls.

(** The first data line of a record, and whether it reaches column 7. *)
Definition data_line_1 (r : list ascii * list ascii * list ascii)
  : list ascii :=
  snd (fst r).

Definition reaches_column_7 (r : list ascii * list ascii * list ascii)
  : bool :=
  (7 <=? List.length (data_line_1 r))%nat.

(** ** Further structures and files to run the functions on *)

Module Cases.

Import Header.
Open Scope float_scope.

(** An element set with a given date, which the stand-in geometry of
    [Demo] turns into the sub-satellite longitude of opposite sign. *)
Definition dated_tle (e : double) : tle_t :=
  let t := Demo.first_rev_tle in
  mk_tle e (epoch_year t) (epoch_day t) (epoch_fod t)
    (xndt2o t) (xndd6o t) (bstar t) (xincl t) (xnodeo t) (eo t)
    (omegao t) (xmo t) (xno t) (catnr t) (elset t) (revnum t)
    (sat_name t) (idesg t) (status t) (xincl1 t) (omegao1 t).

Definition dated (e : double) : sat_t := Demo.with_tle (dated_tle e).

(** The record of [Demo.stations] with the deep-space bit set. *)
Definition iss_deep : sat_t := set_flags Demo.iss 64.

(** An observer in the northern hemisphere. *)
Definition north : qth_t := mk_qth 55.5 12.5 10.

(** The records of [Demo.stations], line by line. *)
Definition station_records : list (list ascii * list ascii * list ascii) :=
  [(list_ascii_of_string "NOAA 18",
    list_ascii_of_string
      "1 28654U 05018A   08264.49373155 -.00000043  00000-0  00000+0 0  5231",
    list_ascii_of_string
      "2 28654  98.8740 208.5273 0013479 310.7561  49.2444 14.11047857171610");
   (list_ascii_of_string "ISS (ZARYA)",
    list_ascii_of_string
      "1 25544U 98067A   08264.51782528 -.00002182  00000-0 -11606-4 0  2927",
    list_ascii_of_string
      "2 25544  51.6416 247.4627 0006703 130.5360 325.0288 15.72125391563537")].






(** A read whose record is accepted and whose element set carries the
    date -2^60: the stand-in geometry returns the longitude 2^60, from
    which no subtraction of [twopi] leads away. *)
Definition far_store : Collaborators :=
  {| de2ra := de2ra_h; pi := pi_h; twopi := twopi_h;
     xmnpda := xmnpda_h; ae := ae_h; xkmper := xkmper_h;
     DEEP_SPACE_EPHEM_FLAG := DEEP_SPACE_EPHEM_FLAG_h;
     Get_Next_Tle_Set := fun _ _ => (1%Z, dated_tle (-0x1p+60));
     select_ephemeris := Demo.d_select_ephemeris;
     SGP4 := Demo.d_SGP4; SDP4 := Demo.d_SDP4;
     Convert_Sat_State := Demo.d_Convert_Sat_State;
     Magnitude := Demo.d_Magnitude;
     Calculate_Obs := Demo.d_Calculate_Obs;
     Calculate_LatLonAlt := Demo.d_Calculate_LatLonAlt;
     Julian_Date_of_Epoch := Demo.d_Julian_Date_of_Epoch;
     Degrees := Demo.d_Degrees;
     get_orbit_type := Demo.d_get_orbit_type;
     tle_lookup := Demo.d_tle_lookup;
     g_get_home_dir := "/home/op";
     G_DIR_SEPARATOR_S := "/";
     fopen := Demo.d_fopen Demo.good_files;
     g_ascii_strtod := Demo.d_g_ascii_strtod;
     acos := Demo.d_acos |}.

(** The same longitude, with the deep-space bit set on entry. *)
Definition far_deep : sat_t := set_flags (dated (-0x1p+60)) 64.



(** A file of one record whose name line has 86 characters, the last
    five of them digits; its data lines are those of NOAA 18. *)
Definition long_record : list ascii * list ascii * list ascii :=
  (repeat "A"%char 79 ++ list_ascii_of_string "xx25544",
   list_ascii_of_string
     "1 28654U 05018A   08264.49373155 -.00000043  00000-0  00000+0 0  5231",
   list_ascii_of_string
     "2 28654  98.8740 208.5273 0013479 310.7561  49.2444 14.11047857171610").

Definition long_files : list (string * string) :=
  [("/home/op/.gpredict2/tle/stations.tle"%string,
    string_of_list_ascii (file_text [long_record]))].

Definition long_store : Collaborators := Demo.collaborators long_files.

End Cases.

(** * Facts about binary64 arithmetic

    Proved from the specification of the primitive operations
    ([Prim2SF], [SFadd], [SFsub], [SFmul], [SFcompare]). *)

Module Binary64.

Import Header.

Open Scope float_scope.

(** The mantissa of the header's [pi] and [twopi]. *)
Definition mpi : positive := 7074237752028456%positive.

(** *** A finite factor times zero *)

Lemma is_finite_SF x :
  is_finite x = true ->
  (exists s, Prim2SF x = S754_zero s) \/ (exists s m e, Prim2SF x = S754_finite s m e).
Proof.
  unfold is_finite, is_nan, is_infinity.
  rewrite !eqb_spec, abs_spec.
  change (Prim2SF infinity) with (S754_infinity false).
  destruct (Prim2SF x) as [s|s| |s m e]; try (destruct s); cbn;
    try discriminate; eauto.
Qed.





(** *** Integers that fit the format *)

Lemma digits2_size p : digits2_pos p = Pos.size p.
Proof. induction p; simpl; congruence. Qed.

Lemma digits2_upper p : (Zpos p < 2 ^ Zpos (digits2_pos p))%Z.
Proof.
  rewrite digits2_size. pose proof (Pos.size_gt p) as H.
  apply Pos2Z.pos_lt_pos in H. rewrite Pos2Z.inj_pow in H. exact H.
Qed.

Lemma digits2_lower p : (2 ^ (Zpos (digits2_pos p) - 1) <= Zpos p)%Z.
Proof.
  rewrite digits2_size. pose proof (Pos.size_le p) as H.
  apply Pos2Z.pos_le_pos in H. rewrite Pos2Z.inj_pow in H.
  replace (Zpos (Pos.size p)) with (Z.succ (Zpos (Pos.size p) - 1)) in H by lia.
  rewrite Z.pow_succ_r in H by lia. lia.
Qed.

Lemma iter_xO_value m k : Zpos (Pos.iter xO m k) = (Zpos m * 2 ^ Zpos k)%Z.
Proof.
  rewrite (Pos.iter_swap_gen _ _ _ xO (Z.mul 2)) by reflexivity.
  change (Pos.iter (Z.mul 2) (Zpos m) k) with (Z.shiftl (Zpos m) (Zpos k)).
  apply Z.shiftl_mul_pow2. lia.
Qed.

Lemma iter_xO_digits m k :
  Zpos (digits2_pos (Pos.iter xO m k)) = (Zpos (digits2_pos m) + Zpos k)%Z.
Proof.
  revert m. induction k using Pos.peano_ind; intros m.
  - simpl. lia.
  - rewrite Pos.iter_succ. simpl digits2_pos. rewrite Pos2Z.inj_succ, IHk. lia.
Qed.

(** Rounding a positive integer never gives a negative double. *)
Lemma binary_round_nonneg m e m' e' :
  SFltb (binary_round prec emax false m e) (S754_finite true m' e') = false.
Proof.
  unfold binary_round, binary_round_aux.
  destruct (shl_align _ _ _) as [mz ez].
  destruct (shr_fexp _ _ _ _ _) as [mrs1 e1].
  destruct (shr_fexp _ _ _ _ _) as [mrs2 e2].
  destruct (shr_m mrs2); try reflexivity.
  destruct (e2 <=? emax - prec)%Z; reflexivity.
Qed.

(** An integer of at most 53 bits, scaled by an exponent in range, is a
    double: rounding only normalises it. *)
Lemma binary_round_exact s d e0 :
  (Zpos (digits2_pos d) <= 53)%Z -> (-1074 <= e0 <= 0)%Z ->
  let e' := fexp prec emax (Zpos (digits2_pos d) + e0) in
  binary_round prec emax s d e0 =
  S754_finite s (fst (shl_align d e0 e')) e' /\
  (e' <= e0)%Z /\
  Zpos (fst (shl_align d e0 e')) = (Zpos d * 2 ^ (e0 - e'))%Z.
Proof.
  intros Hd He. cbv zeta.
  set (e' := fexp prec emax (Zpos (digits2_pos d) + e0)).
  assert (He' : (e' <= e0)%Z).
  { subst e'. unfold fexp, emin, prec, emax. lia. }
  assert (Hal : exists mz, shl_align d e0 e' = (mz, e') /\
              Zpos mz = (Zpos d * 2 ^ (e0 - e'))%Z /\
              (Zpos (digits2_pos mz) + e' = Zpos (digits2_pos d) + e0)%Z).
  { unfold shl_align. destruct (e' - e0)%Z as [|k|k] eqn:Ek; try lia.
    - assert (Heq : e' = e0) by lia. exists d. rewrite Heq, Z.sub_diag.
      repeat split; lia.
    - exists (Pos.iter xO d k). rewrite iter_xO_value, iter_xO_digits.
      replace (e0 - e')%Z with (Zpos k) by lia. repeat split; lia. }
  destruct Hal as (mz & Hal & Hv & Hdg).
  unfold binary_round. fold e'. rewrite Hal. simpl fst.
  repeat split; [|assumption|assumption].
  assert (Hf : fexp prec emax (Z.pos (digits2_pos mz) + e') = e').
  { rewrite Hdg. reflexivity. }
  unfold binary_round_aux, shr_fexp. simpl Zdigits2.
  rewrite Hf, Z.sub_diag. cbn [shr shr_record_of_loc shr_m loc_of_shr_record round_nearest_even Zdigits2].
  rewrite Hf, Z.sub_diag. cbn [shr shr_record_of_loc shr_m].
  replace (e' <=? emax - prec)%Z with true; [reflexivity|].
  symmetry. apply Z.leb_le. unfold emax, prec. lia.
Qed.




Lemma pi_SF : Prim2SF pi_h = S754_finite false mpi (-51).
Proof. vm_compute. reflexivity. Qed.

Lemma twopi_SF : Prim2SF twopi_h = S754_finite false mpi (-50).
Proof. vm_compute. reflexivity. Qed.



Lemma pow_ge_1 e0 : (e0 = -51 \/ e0 = -50)%Z -> (1 <= 2 ^ (e0 + 51))%Z.
Proof. intros [->| ->]; vm_compute; discriminate. Qed.

Lemma mpi_bound : (Zpos mpi < 2 ^ 53)%Z.
Proof. vm_compute. reflexivity. Qed.

Lemma bits_bound d e0 :
  (e0 = -51 \/ e0 = -50)%Z ->
  (Zpos d * 2 ^ (e0 + 51) <= Zpos mpi)%Z ->
  (Zpos (digits2_pos d) <= 53 - (e0 + 51))%Z.
Proof.
  intros He Hd. pose proof (@pow_ge_1 _ He) as Hp.
  pose proof (digits2_lower d) as Hl.
  destruct (Z_le_gt_dec (Zpos (digits2_pos d)) (53 - (e0 + 51))) as [|Hgt];
      [assumption|exfalso].
  assert (2 ^ (53 - (e0 + 51)) <= 2 ^ (Zpos (digits2_pos d) - 1))%Z
      by (apply Z.pow_le_mono_r; lia).
  assert (2 ^ (53 - (e0 + 51)) * 2 ^ (e0 + 51) = 2 ^ 53)%Z
      by (rewrite <- Z.pow_add_r by lia; f_equal; lia).
  pose proof mpi_bound.
  nia.
Qed.

Lemma negative_compare mz e' p b :
  (e' <= b)%Z -> (e' = b -> (Zpos mz <= Zpos p)%Z) ->
  SFltb (S754_finite true mz e') (S754_finite true p b) = false.
Proof.
  intros Hle Hm. unfold SFltb, SFcompare.
  destruct (Z.compare_spec e' b) as [Heq|Hlt|Hgt]; try reflexivity.
  - specialize (Hm Heq).
    pose proof (Pos.compare_spec mz p) as Hc. unfold Pos.compare in Hc.
    destruct Hc as [Hc|Hc|Hc]; try reflexivity. lia.
  - lia.
Qed.

Lemma small_negative_not_below d e0 :
  (e0 = -51 \/ e0 = -50)%Z ->
  (Zpos d * 2 ^ (e0 + 51) <= Zpos mpi)%Z ->
  SFltb (binary_round prec emax true d e0) (S754_finite true mpi (-51)) = false.
Proof.
  intros He Hd.
  pose proof (@bits_bound _ _ He Hd) as Hbits.
  destruct (@binary_round_exact true d e0) as (Hbr & He' & Hv); [lia|lia|].
  rewrite Hbr.
  assert (Hle : (fexp prec emax (Zpos (digits2_pos d) + e0) <= -51)%Z)
    by (unfold fexp, emin, prec, emax; lia).
  revert Hv Hle. generalize (fexp prec emax (Zpos (digits2_pos d) + e0)).
  intros e' Hv Hle. revert Hv. generalize (fst (shl_align d e0 e')).
  intros mz Hv. apply negative_compare; [assumption|].
  intros ->. rewrite Hv. now replace (e0 - -51)%Z with (e0 + 51)%Z by lia.
Qed.

Lemma shl_align_value m e ez :
  (ez <= e)%Z -> Zpos (fst (shl_align m e ez)) = (Zpos m * 2 ^ (e - ez))%Z.
Proof.
  intros H. unfold shl_align. destruct (ez - e)%Z as [|k|k] eqn:Ek; try lia.
  - replace (e - ez)%Z with 0%Z by lia. cbn [fst]. rewrite Z.pow_0_r. lia.
  - cbn [fst]. rewrite iter_xO_value. replace (e - ez)%Z with (Zpos k) by lia.
    reflexivity.
Qed.

Lemma bounded_digits m e :
  bounded prec emax m e = true ->
  (Zpos m < 2 ^ 53)%Z /\ ((-1074 < e)%Z -> (2 ^ 52 <= Zpos m)%Z) /\
  (-1074 <= e <= 971)%Z.
Proof.
  unfold bounded, canonical_mantissa. intros H.
  apply andb_true_iff in H as [H1 H2].
  apply Z.eqb_eq in H1. apply Z.leb_le in H2.
  unfold fexp, emin, prec, emax in *.
  pose proof (digits2_upper m) as Hu. pose proof (digits2_lower m) as Hl.
  assert (Hd : (Zpos (digits2_pos m) <= 53)%Z) by lia.
  repeat split; try lia.
  - eapply Z.lt_le_trans; [exact Hu|]. apply Z.pow_le_mono_r; lia.
  - intros He. assert (Zpos (digits2_pos m) = 53%Z) as Heq by lia.
    rewrite Heq in Hl. exact Hl.
Qed.

Lemma sub_twopi_not_below x :
  (pi_h <? x) = true -> (x - twopi_h <? - pi_h) = false.
Proof.
  rewrite !ltb_spec, sub_spec, opp_spec, pi_SF, twopi_SF.
  pose proof (Prim2SF_valid x) as Hv.
  destruct (Prim2SF x) as [s|s| |s m e]; try (destruct s); try discriminate;
    try reflexivity.
  intros Hlt. simpl in Hv. apply bounded_digits in Hv as (H53 & H52 & Hr).
  pose proof mpi_bound as Hm.
  assert (Hcmp : (-51 < e)%Z \/ (e = (-51)%Z /\ (Zpos mpi < Zpos m)%Z)).
  { unfold SFltb, SFcompare in Hlt.
    destruct (Z.compare_spec (-51) e) as [He|He|He]; try discriminate;
      [right|left; assumption].
    split; [auto|].
    pose proof (Pos.compare_spec mpi m) as Hc. unfold Pos.compare in Hc.
    destruct Hc; try discriminate. assumption. }
  unfold SF64sub, SFsub, SFopp, cond_Zopp, negb.
  assert (Hz : (Z.min e (-50) <= e)%Z /\ (Z.min e (-50) <= -50)%Z) by lia.
  destruct Hz as [Hz1 Hz2].
  rewrite (@shl_align_value m _ _ Hz1), (@shl_align_value mpi _ _ Hz2).
  destruct Hcmp as [He|[He Hgt]].
  - (* x is at least 4 *)
    replace (Z.min e (-50)) with (-50)%Z by lia.
    change (2 ^ (-50 - -50))%Z with 1%Z. rewrite Z.mul_1_r.
    assert (Hp : (1 <= 2 ^ (e - -50))%Z) by (apply Z.pow_le_mono_r with (b := 0%Z); lia).
    specialize (H52 ltac:(lia)).
    destruct (Zpos m * 2 ^ (e - -50) - Zpos mpi)%Z as [|p|d] eqn:Ed.
    + reflexivity.
    + apply binary_round_nonneg.
    + apply small_negative_not_below; [now right|].
      change (2 ^ (-50 + 51))%Z with 2%Z. nia.
  - (* x lies between pi and 4 *)
    subst e. replace (Z.min (-51) (-50)) with (-51)%Z by reflexivity.
    change (2 ^ (-51 - -51))%Z with 1%Z. change (2 ^ (-50 - -51))%Z with 2%Z.
    destruct (Zpos m * 1 - Zpos mpi * 2)%Z as [|p|d] eqn:Ed.
    + reflexivity.
    + apply binary_round_nonneg.
    + apply small_negative_not_below; [now left|].
      change (2 ^ (-51 + 51))%Z with 1%Z. lia.
Qed.

(** *** Comparison is total on doubles that are not NaN *)

Lemma SFcompare_antisym a b :
  SFcompare b a = option_map CompOpp (SFcompare a b).
Proof.
  destruct a as [sa|sa| |sa ma ea], b as [sb|sb| |sb mb eb];
    try (destruct sa); try (destruct sb); try reflexivity; simpl;
    rewrite (Z.compare_antisym ea eb);
    destruct (ea ?= eb)%Z; simpl; try reflexivity;
    rewrite (Pos.compare_cont_antisym ma mb Eq); simpl;
    destruct (Pos.compare_cont Eq ma mb); reflexivity.
Qed.

Lemma is_nan_SF x : is_nan x = false -> Prim2SF x <> S754_nan.
Proof.
  unfold is_nan. rewrite eqb_spec. intros H E. rewrite E in H. discriminate.
Qed.

Lemma SF_is_nan x : Prim2SF x <> S754_nan -> is_nan x = false.
Proof.
  unfold is_nan. rewrite eqb_spec. intros H.
  destruct (Prim2SF x) as [s|s| |s m e]; try (destruct s); try reflexivity.
  - now elim H.
  - unfold SFeqb, SFcompare. rewrite Z.compare_refl.
    now rewrite Pos.compare_cont_refl.
  - unfold SFeqb, SFcompare. rewrite Z.compare_refl.
    now rewrite Pos.compare_cont_refl.
Qed.

Lemma not_ltb_leb x y :
  is_nan x = false -> is_nan y = false ->
  (x <? y) = false -> (y <=? x) = true.
Proof.
  intros Hx Hy. rewrite ltb_spec, leb_spec. unfold SFltb, SFleb.
  rewrite (SFcompare_antisym (Prim2SF x) (Prim2SF y)).
  apply is_nan_SF in Hx. apply is_nan_SF in Hy.
  destruct (SFcompare (Prim2SF x) (Prim2SF y)) as [[]|] eqn:E;
    simpl; try congruence.
  exfalso.
  destruct (Prim2SF x) as [sa|sa| |sa ma ea], (Prim2SF y) as [sb|sb| |sb mb eb];
    try congruence; simpl in E; try (destruct sa); try (destruct sb);
    discriminate.
Qed.

Lemma ltb_irrefl x : (x <? x) = false.
Proof.
  rewrite ltb_spec. unfold SFltb, SFcompare.
  destruct (Prim2SF x) as [s|s| |s m e]; try (destruct s); try reflexivity;
    now rewrite Z.compare_refl, Pos.compare_cont_refl.
Qed.

(** *** Sums of numbers are not NaN *)

Lemma shr_1_nonneg r : (0 <= shr_m r)%Z -> (0 <= shr_m (shr_1 r))%Z.
Proof.
  destruct r as [m r s]. simpl.
  destruct m as [|[p|p|]|[p|p|]]; simpl; lia.
Qed.

Lemma iter_shr_1_nonneg p :
  forall r, (0 <= shr_m r)%Z -> (0 <= shr_m (iter_pos shr_1 p r))%Z.
Proof.
  induction p as [p IH|p IH|]; intros r Hr; simpl.
  - apply IH, IH, shr_1_nonneg, Hr.
  - apply IH, IH, Hr.
  - apply shr_1_nonneg, Hr.
Qed.

Lemma shr_fexp_nonneg m e l :
  (0 <= m)%Z -> (0 <= shr_m (fst (shr_fexp prec emax m e l)))%Z.
Proof.
  intros Hm. unfold shr_fexp, shr.
  assert (H0 : (0 <= shr_m (shr_record_of_loc m l))%Z)
    by (destruct l as [|[]]; exact Hm).
  destruct (fexp prec emax (Zdigits2 m + e) - e)%Z; simpl;
    auto using iter_shr_1_nonneg.
Qed.

Lemma binary_round_aux_not_nan s m e l :
  (0 <= m)%Z -> binary_round_aux prec emax s m e l <> S754_nan.
Proof.
  intros Hm. unfold binary_round_aux.
  pose proof (@shr_fexp_nonneg m e l Hm) as H1.
  destruct (shr_fexp prec emax m e l) as [mrs1 e1]. simpl in H1.
  assert (H2 : (0 <= round_nearest_even (shr_m mrs1)
                        (loc_of_shr_record mrs1))%Z).
  { unfold round_nearest_even.
    destruct (loc_of_shr_record mrs1) as [|[]]; try lia.
    destruct (Z.even (shr_m mrs1)); lia. }
  pose proof (@shr_fexp_nonneg _ e1 loc_Exact H2) as H3.
  destruct (shr_fexp prec emax _ e1 loc_Exact) as [mrs2 e2]. simpl in H3.
  destruct (shr_m mrs2); try lia; try discriminate.
  destruct (e2 <=? emax - prec)%Z; discriminate.
Qed.

Lemma binary_normalize_not_nan m e :
  binary_normalize prec emax m e false <> S754_nan.
Proof.
  destruct m as [|p|p]; simpl; try discriminate;
    unfold binary_round; destruct (shl_align _ _ _) as [mz ez];
    apply binary_round_aux_not_nan; lia.
Qed.

(** Adding or subtracting a finite double to a double that compared
    below or above something gives no NaN. *)
Lemma add_not_nan x y c :
  (x <? y) = true -> is_finite c = true -> is_nan (x + c) = false.
Proof.
  rewrite ltb_spec. intros Hlt Hc. apply SF_is_nan. rewrite add_spec.
  destruct (@is_finite_SF _ Hc) as [[s Hs]|(s & m & e & Hs)]; rewrite Hs;
    destruct (Prim2SF x) as [sx|sx| |sx mx ex]; try discriminate;
    try (destruct sx); try (destruct s); try discriminate;
    apply binary_normalize_not_nan.
Qed.

Lemma sub_not_nan x y c :
  (y <? x) = true -> is_finite c = true -> is_nan (x - c) = false.
Proof.
  rewrite ltb_spec. intros Hlt Hc. apply SF_is_nan. rewrite sub_spec.
  destruct (@is_finite_SF _ Hc) as [[s Hs]|(s & m & e & Hs)]; rewrite Hs;
    destruct (Prim2SF y) as [sy|sy| |sy my ey];
    destruct (Prim2SF x) as [sx|sx| |sx mx ex]; try discriminate;
    try (destruct sx); try (destruct s); try discriminate;
    apply binary_normalize_not_nan.
Qed.

End Binary64.

(** * Properties *)

(** ** The trace monad *)

Lemma bind_Some A B (m : M A) (k : A -> M B) b tr :
  bind m k = Some (b, tr) ->
  exists a tr1 tr2, m = Some (a, tr1) /\ k a = Some (b, tr2) /\ tr = tr1 ++ tr2.
Proof.
  unfold bind. destruct m as [[a tr1]|]; [|discriminate].
  destruct (k a) as [[b' tr2]|] eqn:K; [|discriminate].
  intros H. injection H as <- <-. exists a, tr1, tr2. auto.
Qed.

Lemma bind_emit A (e : event) (k : M A) :
  (emit e ;;; k) = match k with Some (a, tr) => Some (a, e :: tr) | None => None end.
Proof. unfold bind, emit. destruct k as [[a tr]|]; reflexivity. Qed.

Lemma bind_ret A B (a : A) (k : A -> M B) : (x <- ret a ;; k x) = k a.
Proof. unfold bind, ret. destruct (k a) as [[b tr]|]; reflexivity. Qed.

(** ** [fgets] consumes the stream *)

Lemma fgets_chars_length n fp l r :
  fgets_chars n fp = (l, r) -> (List.length l + List.length r = List.length fp)%nat.
Proof.
  revert fp l r. induction n as [|n IH]; intros fp l r; simpl.
  - intros H. injection H as <- <-. reflexivity.
  - destruct fp as [|c fp'].
    + intros H. injection H as <- <-. reflexivity.
    + destruct (Ascii.eqb c newline).
      * intros H. injection H as <- <-. reflexivity.
      * destruct (fgets_chars n fp') as [l' r'] eqn:E.
        intros H. injection H as <- <-. simpl. f_equal. now apply IH.
Qed.

Lemma fgets_Some s size fp s' fp' :
  fgets s size fp = (Some s', fp') -> (List.length fp' < List.length fp)%nat.
Proof.
  unfold fgets. destruct (fgets_chars (size - 1) fp) as [l r] eqn:E.
  apply fgets_chars_length in E. destruct l as [|c l]; [discriminate|].
  intros H. injection H as _ <-. simpl in E. lia.
Qed.

Lemma fgets_row_length row fp row' fp' :
  fgets_row row fp = (row', fp') -> (List.length fp' <= List.length fp)%nat.
Proof.
  unfold fgets_row. destruct (fgets row 80 fp) as [[r|] f] eqn:E.
  - intros H. injection H as _ <-. apply fgets_Some in E. lia.
  - intros H. injection H as _ <-. unfold fgets in E.
    destruct (fgets_chars (80 - 1) fp) as [l r] eqn:E'.
    destruct l; [|discriminate]. injection E as <-. lia.
Qed.

Section Properties.

Context {C : Collaborators}.

Open Scope float_scope.

(** ** The shape of a run of [sat_data_init] *)

Lemma lon_lower_trace fuel lon l tr :
  lon_lower fuel lon = Some (l, tr) -> tr = [].
Proof.
  revert lon. induction fuel as [|f IH]; intros lon; simpl; [discriminate|].
  destruct (pi <? lon); [apply IH|].
  intros H. now injection H as _ <-.
Qed.

Lemma lon_raise_trace fuel lon l tr :
  lon_raise fuel lon = Some (l, tr) -> tr = [].
Proof.
  revert lon. induction fuel as [|f IH]; intros lon; simpl; [discriminate|].
  destruct (lon <? - pi); [apply IH|].
  intros H. now injection H as _ <-.
Qed.

Lemma normalize_lon_trace fuel lon l tr :
  normalize_lon fuel lon = Some (l, tr) -> tr = [].
Proof.
  unfold normalize_lon. intros H.
  apply bind_Some in H as (a & tr1 & tr2 & H1 & H2 & ->).
  apply lon_raise_trace in H1. apply lon_lower_trace in H2. now subst.
Qed.

Lemma propagate_at_epoch_eq sat :
  propagate_at_epoch sat = Some (propagator sat, [propagation_event sat]).
Proof.
  unfold propagate_at_epoch, propagator, propagation_event.
  destruct (deep_space sat); reflexivity.
Qed.

Lemma sat_data_init_eq fuel sat qth :
  sat_data_init fuel sat qth =
  match normalize_lon fuel (geo_lon (snd (located sat qth))) with
  | Some (lon, _) =>
      Some (initialised sat qth lon,
            [Ev_sat_data_init sat qth;
             propagation_event
               (set_jul_epoch sat (Julian_Date_of_Epoch (epoch (tle sat))))])
  | None => None
  end.
Proof.
  unfold sat_data_init. rewrite bind_emit.
  unfold bind at 1. rewrite propagate_at_epoch_eq.
  unfold initialised, located, observed, scaled.
  set (jul := Julian_Date_of_Epoch (epoch (tle sat))).
  set (s2 := scale_state (propagator (set_jul_epoch sat jul))).
  destruct (Calculate_Obs jul (pos s2) (vel s2) (observer_geodetic qth))
    as [[p v] obs] eqn:Eo.
  simpl fst; simpl snd.
  change (pos (set_vel (set_pos s2 p) v)) with p.
  destruct (Calculate_LatLonAlt jul p) as [p' g] eqn:El.
  simpl fst; simpl snd.
  destruct (normalize_lon fuel (geo_lon g)) as [[lon tr]|] eqn:En;
    [|reflexivity].
  apply normalize_lon_trace in En. subst tr. reflexivity.
Qed.

(** ** The shape of a run of [sat_data_read] *)

Lemma load_record_eq fuel g ec sat :
  load_record fuel g ec sat =
  let '(rc, t) := Get_Next_Tle_Set g (tle sat) in
  if negb (rc =? 1)%Z then
    Some ((2%Z, set_tle sat t),
          [Ev_log SAT_LOG_LEVEL_DEBUG; Ev_Get_Next_Tle_Set g;
           Ev_log SAT_LOG_LEVEL_ERROR])
  else
    let s0 := set_flags (set_tle sat t) 0%Z in
    match sat_data_init fuel (init_variable_fields (select_ephemeris s0))
            None with
    | Some (s', tr) =>
        Some ((ec, s'),
              [Ev_log SAT_LOG_LEVEL_DEBUG; Ev_Get_Next_Tle_Set g;
               Ev_log SAT_LOG_LEVEL_DEBUG; Ev_select_ephemeris s0] ++ tr)
    | None => None
    end.
Proof.
  unfold load_record. rewrite !bind_emit.
  destruct (Get_Next_Tle_Set g (tle sat)) as [rc t].
  destruct (negb (rc =? 1)%Z).
  - rewrite bind_emit. reflexivity.
  - rewrite !bind_emit. unfold bind, ret.
    destruct (sat_data_init fuel _ None) as [[s' tr]|]; [|reflexivity].
    now rewrite app_nil_r.
Qed.

Lemma read_loop_found k fuel catnum fp tle_str ec sat :
  (0 < k)%nat ->
  read_loop k fuel catnum fp tle_str true ec sat = Some ((ec, sat), []).
Proof.
  destruct k as [|k]; [lia|]. intros _. simpl.
  destruct (fgets (line0 tle_str) 80 fp) as [[row0|] fp1]; reflexivity.
Qed.

(** The loop runs the body's matching branch on the first content of
    [tle_str] whose catalogue number matches, and on no other. *)
Lemma read_loop_scan fuel catnum ec sat k :
  forall fp tle_str,
    (List.length fp < k)%nat ->
    read_loop k fuel catnum fp tle_str false ec sat =
    match find (matches catnum) (tle_groups k fp tle_str) with
    | Some g => load_record fuel g ec sat
    | None => Some ((ec, sat), [])
    end.
Proof.
  induction k as [|k IH]; intros fp tle_str Hk; [lia|].
  simpl.
  destruct (fgets (line0 tle_str) 80 fp) as [[row0|] fp1] eqn:E0;
    [|reflexivity].
  apply fgets_Some in E0.
  destruct (fgets_row (line1 tle_str) fp1) as [row1 fp2] eqn:E1.
  destruct (fgets_row (line2 tle_str) fp2) as [row2 fp3] eqn:E2.
  apply fgets_row_length in E1. apply fgets_row_length in E2.
  simpl.
  destruct (matches catnum (mk_tle_buf row0 row1 row2)).
  - unfold bind.
    destruct (load_record fuel _ ec sat) as [[[ec' sat'] tr]|];
      [|reflexivity].
    rewrite read_loop_found by lia. now rewrite app_nil_r.
  - apply IH. lia.
Qed.

Lemma sat_data_read_eq fuel tle_str0 catnum sat :
  sat_data_read fuel tle_str0 catnum sat =
  match tle_lookup catnum with
  | None => Some ((1%Z, sat), [Ev_log SAT_LOG_LEVEL_ERROR])
  | Some filename =>
      match fopen (tle_path filename) with
      | None => Some ((3%Z, sat), [Ev_log SAT_LOG_LEVEL_ERROR])
      | Some fp =>
          match find (matches catnum)
                  (tle_groups (S (List.length fp)) fp tle_str0) with
          | Some g => load_record fuel g 0%Z sat
          | None => Some ((0%Z, sat), [])
          end
      end
  end.
Proof.
  unfold sat_data_read.
  destruct (tle_lookup catnum) as [filename|]; [|reflexivity].
  destruct (fopen (tle_path filename)) as [fp|]; [|reflexivity].
  apply read_loop_scan. lia.
Qed.

Lemma sat_data_read_shape fuel tle_str0 catnum sat r tr :
  sat_data_read fuel tle_str0 catnum sat = Some (r, tr) ->
  run_shape fuel sat r tr.
Proof.
  rewrite sat_data_read_eq.
  destruct (tle_lookup catnum) as [filename|].
  2:{ intros H. injection H as <- <-. constructor. now left. }
  destruct (fopen (tle_path filename)) as [fp|].
  2:{ intros H. injection H as <- <-. constructor. now right. }
  destruct (find _ _) as [g|].
  2:{ intros H. injection H as <- <-. constructor. }
  rewrite load_record_eq.
  destruct (Get_Next_Tle_Set g (tle sat)) as [rc t] eqn:Eg.
  destruct (rc =? 1)%Z eqn:Erc; simpl negb; cbv iota.
  - apply Z.eqb_eq in Erc. subst rc. cbv zeta.
    destruct (sat_data_init fuel _ None) as [[s' tr']|] eqn:Ei;
      [|discriminate].
    intros H. injection H as <- <-.
    pose proof Ei as Ei'. rewrite sat_data_init_eq in Ei'.
    destruct (normalize_lon fuel _) as [[lon tr0]|]; [|discriminate].
    injection Ei' as _ <-.
    simpl app. eapply run_valid; eauto.
  - apply Z.eqb_neq in Erc.
    intros H. injection H as <- <-. eapply run_invalid; eauto.
Qed.

Lemma find_none_of_forallb A (f : A -> bool) l :
  forallb (fun a => negb (f a)) l = true -> find f l = None.
Proof.
  induction l as [|a l IH]; simpl; [reflexivity|].
  destruct (f a); simpl; [discriminate|exact IH].
Qed.

(** ** Reading: claims about [sat_data_read] *)

(** When the lookup names a file and the file opens, but no content of
    [tle_str] the loop examines carries the requested catalogue number,
    [sat_data_read] runs to the end of the file, leaves [*sat] as it was,
    calls no collaborator, and returns 0. *)
Lemma unmatched_contents_return_success
    fuel tle_str0 catnum sat filename fp :
  tle_lookup catnum = Some filename ->
  fopen (tle_path filename) = Some fp ->
  forallb (fun g => negb (matches catnum g))
    (tle_groups (S (List.length fp)) fp tle_str0) = true ->
  sat_data_read fuel tle_str0 catnum sat = Some ((0%Z, sat), []).
Proof.
  intros Hl Hf Hn. rewrite sat_data_read_eq, Hl, Hf.
  now rewrite (@find_none_of_forallb _ _ _ Hn).
Qed.

(** A rejected record, seen from the trace: whatever led to the call, the
    read returns 2 and has changed nothing but the element set. *)
Lemma rejected_record_trace fuel tle_str0 catnum sat code sat' tr line :
  sat_data_read fuel tle_str0 catnum sat = Some ((code, sat'), tr) ->
  In (Ev_Get_Next_Tle_Set line) tr ->
  fst (Get_Next_Tle_Set line (tle sat)) <> 1%Z ->
  code = 2%Z /\
  sat' = set_tle sat (snd (Get_Next_Tle_Set line (tle sat))) /\
  tr = [Ev_log SAT_LOG_LEVEL_DEBUG; Ev_Get_Next_Tle_Set line;
        Ev_log SAT_LOG_LEVEL_ERROR].
Proof.
  intros Hrun Hin Hrc. apply sat_data_read_shape in Hrun.
  inversion Hrun as [c Hc | | g rc t Hg Hne | g t s2 e2 Hg Hi He];
    subst; simpl in Hin.
  - destruct Hin as [Hin|[]]; discriminate.
  - destruct Hin.
  - destruct Hin as [Hin|[Hin|[Hin|[]]]]; try discriminate.
    injection Hin as ->. rewrite Hg. simpl. auto.
  - destruct Hin as [Hin|[Hin|[Hin|[Hin|[Hin|[Hin|[]]]]]]]; try discriminate.
    + injection Hin as ->. rewrite Hg in Hrc. now elim Hrc.
    + unfold propagation_event in Hin.
      destruct (deep_space _) in Hin; discriminate.
Qed.

(** C8.  If the first content of [tle_str] that carries the catalogue
    number is rejected by the validator (a result other than 1), the read
    returns, whatever the fuel, with the code 2 and a structure that
    differs from the one passed in only by what the validator wrote into
    its element set; the trace is exactly: the "found" message, the
    validator call, the error message.  So the flags are not cleared, the
    variable fields are not zeroed, and neither [select_ephemeris],
    [sat_data_init] nor a propagator is called. *)
Theorem C8_invalid_record_is_terminal
    fuel tle_str0 catnum sat filename fp g :
  tle_lookup catnum = Some filename ->
  fopen (tle_path filename) = Some fp ->
  find (matches catnum) (tle_groups (S (List.length fp)) fp tle_str0)
  = Some g ->
  fst (Get_Next_Tle_Set g (tle sat)) <> 1%Z ->
  let sat' := set_tle sat (snd (Get_Next_Tle_Set g (tle sat))) in
  sat_data_read fuel tle_str0 catnum sat =
  Some ((2%Z, sat'),
        [Ev_log SAT_LOG_LEVEL_DEBUG; Ev_Get_Next_Tle_Set g;
         Ev_log SAT_LOG_LEVEL_ERROR]) /\
  flags sat' = flags sat /\ priv sat' = priv sat /\
  pos sat' = pos sat /\ vel sat' = vel sat /\
  (jul_epoch sat', jul_utc sat', tsince sat', aos sat', los sat') =
  (jul_epoch sat, jul_utc sat, tsince sat, aos sat, los sat) /\
  (az sat', el sat', range sat', range_rate sat', ra sat', dec sat') =
  (az sat, el sat, range sat, range_rate sat, ra sat, dec sat) /\
  (ssplat sat', ssplon sat', alt sat', velo sat', ma sat', footprint sat',
   phase sat', orbit sat', otype sat') =
  (ssplat sat, ssplon sat, alt sat, velo sat, ma sat, footprint sat,
   phase sat, orbit sat, otype sat).
Proof.
  intros Hl Hf Hg Hrc. cbv zeta.
  split; [|repeat split].
  rewrite sat_data_read_eq, Hl, Hf, Hg, load_record_eq.
  destruct (Get_Next_Tle_Set g (tle sat)) as [rc t]. simpl in Hrc |- *.
  apply Z.eqb_neq in Hrc. now rewrite Hrc.
Qed.

(** The codes for a failed lookup and an unreadable file. *)
Lemma sat_data_read_not_found fuel tle_str0 catnum sat :
  tle_lookup catnum = None ->
  sat_data_read fuel tle_str0 catnum sat =
  Some ((1%Z, sat), [Ev_log SAT_LOG_LEVEL_ERROR]).
Proof. intros H. now rewrite sat_data_read_eq, H. Qed.

Lemma sat_data_read_unreadable fuel tle_str0 catnum sat filename :
  tle_lookup catnum = Some filename ->
  fopen (tle_path filename) = None ->
  sat_data_read fuel tle_str0 catnum sat =
  Some ((3%Z, sat), [Ev_log SAT_LOG_LEVEL_ERROR]).
Proof. intros H1 H2. now rewrite sat_data_read_eq, H1, H2. Qed.

(** A record the validator accepts is loaded, with the code 0, as soon
    as [sat_data_init] returns. *)
Lemma sat_data_read_loaded fuel tle_str0 catnum sat filename fp g t s' tr' :
  tle_lookup catnum = Some filename ->
  fopen (tle_path filename) = Some fp ->
  find (matches catnum) (tle_groups (S (List.length fp)) fp tle_str0)
  = Some g ->
  Get_Next_Tle_Set g (tle sat) = (1%Z, t) ->
  sat_data_init fuel
    (init_variable_fields (select_ephemeris (set_flags (set_tle sat t) 0%Z)))
    None = Some (s', tr') ->
  exists tr, sat_data_read fuel tle_str0 catnum sat = Some ((0%Z, s'), tr).
Proof.
  intros Hl Hf Hg Hv Hi.
  rewrite sat_data_read_eq, Hl, Hf, Hg, load_record_eq, Hv. simpl.
  rewrite Hi. eauto.
Qed.

(** The contents examined do not depend on the iteration bound, once it
    exceeds the length of the stream. *)
Lemma tle_groups_bound k :
  forall k' fp tle_str,
    (List.length fp < k)%nat -> (List.length fp < k')%nat ->
    tle_groups k fp tle_str = tle_groups k' fp tle_str.
Proof.
  induction k as [|k IH]; intros k' fp tle_str Hk Hk'; [lia|].
  destruct k' as [|k']; [lia|]. simpl.
  destruct (fgets (line0 tle_str) 80 fp) as [[row0|] fp1] eqn:E0;
    [|reflexivity].
  apply fgets_Some in E0.
  destruct (fgets_row (line1 tle_str) fp1) as [row1 fp2] eqn:E1.
  destruct (fgets_row (line2 tle_str) fp2) as [row2 fp3] eqn:E2.
  apply fgets_row_length in E1. apply fgets_row_length in E2.
  f_equal. apply IH; lia.
Qed.

(** ** Initialising: claims about [sat_data_init] *)

Lemma scale_state_frame s :
  tle (scale_state s) = tle s /\ flags (scale_state s) = flags s /\
  phase (scale_state s) = phase s /\ priv (scale_state s) = priv s.
Proof.
  unfold scale_state. destruct (Convert_Sat_State (pos s) (vel s)) as [p v].
  repeat split.
Qed.

Lemma sat_data_init_Some fuel sat qth s' tr :
  sat_data_init fuel sat qth = Some (s', tr) ->
  exists lon,
    normalize_lon fuel (geo_lon (snd (located sat qth))) = Some (lon, []) /\
    s' = initialised sat qth lon.
Proof.
  rewrite sat_data_init_eq.
  destruct (normalize_lon fuel _) as [[lon tr0]|] eqn:En; [|discriminate].
  intros H. injection H as <- _.
  pose proof (@normalize_lon_trace _ _ _ _ En) as ->. now exists lon.
Qed.

(** C4.  The stored [ma] is the phase converted to degrees, multiplied by
    256/360; the phase is the one the propagator left in the state. *)
Theorem C4_phase_scaled_to_256 fuel sat qth s' tr :
  sat_data_init fuel sat qth = Some (s', tr) ->
  ma s' = Degrees (phase s') * (256 / 360) /\
  phase s' =
    phase (propagator
             (set_jul_epoch sat (Julian_Date_of_Epoch (epoch (tle sat))))).
Proof.
  intros H. apply sat_data_init_Some in H as (lon & _ & ->).
  split; [reflexivity|].
  unfold initialised. simpl. unfold scaled.
  now destruct (scale_state_frame
    (propagator (set_jul_epoch sat (Julian_Date_of_Epoch (epoch (tle sat))))))
    as (_ & _ & -> & _).
Qed.

(** C6, as the code has it.  The stored orbit number is the epoch
    revolution number minus one, plus the floor of the source's
    expression taken with [age = 0], in [long] arithmetic; with a
    revolution number of 0 and a floor of 0 it is -1. *)
Theorem C6_orbit_is_revnum_minus_one_plus_floor fuel sat qth s' tr :
  sat_data_init fuel sat qth = Some (s', tr) ->
  let t := tle (propagator
                  (set_jul_epoch sat
                     (Julian_Date_of_Epoch (epoch (tle sat))))) in
  let revs := floor ((xno t * xmnpda / twopi + 0 * bstar t * ae) * 0
                     + xmo t / twopi) in
  tle s' = t /\
  orbit s' = orbit_number 0 t /\
  orbit s' = wrap_long (long_of_double revs + revnum t - 1)%Z /\
  (long_of_double revs = 0%Z -> revnum t = 0%Z -> orbit s' = (-1)%Z).
Proof.
  intros H. apply sat_data_init_Some in H as (lon & _ & ->).
  cbv zeta.
  assert (Ht : tle (initialised sat qth lon) =
               tle (propagator (set_jul_epoch sat
                      (Julian_Date_of_Epoch (epoch (tle sat)))))).
  { unfold initialised. simpl. unfold scaled.
    now destruct (scale_state_frame
      (propagator (set_jul_epoch sat
         (Julian_Date_of_Epoch (epoch (tle sat)))))) as (-> & _). }
  assert (Ho : orbit (initialised sat qth lon) =
               orbit_number 0 (tle (initialised sat qth lon)))
    by reflexivity.
  rewrite Ht in Ho. repeat split; try assumption.
  intros Hr Hn. rewrite Ho. unfold orbit_number. cbv zeta.
  rewrite Hr, Hn. reflexivity.
Qed.

(** On return without an observer, the azimuth, elevation, range and
    range rate are those [Calculate_Obs] gives for the geodetic position
    (0, 0, 0), the angles through [Degrees]; with an observer the same
    fields hold the same expressions, evaluated at that observer. *)
Lemma look_angles_of_returned_call fuel sat :
  let jul := Julian_Date_of_Epoch (epoch (tle sat)) in
  let obs_set_for g :=
    snd (Calculate_Obs jul (pos (scaled sat)) (vel (scaled sat)) g) in
  (forall s' tr,
      sat_data_init fuel sat None = Some (s', tr) ->
      let o := obs_set_for (mk_geodetic 0 0 0 0) in
      az s' = Degrees (obs_az o) /\ el s' = Degrees (obs_el o) /\
      range s' = obs_range o /\ range_rate s' = obs_range_rate o) /\
  (forall q s' tr,
      sat_data_init fuel sat (Some q) = Some (s', tr) ->
      let o := obs_set_for (mk_geodetic (qth_lat q * de2ra)
                              (qth_lon q * de2ra)
                              (double_of_Z (qth_alt q) / 1000) 0) in
      az s' = Degrees (obs_az o) /\ el s' = Degrees (obs_el o) /\
      range s' = obs_range o /\ range_rate s' = obs_range_rate o).
Proof.
  cbv zeta. split.
  - intros s' tr H. apply sat_data_init_Some in H as (lon & _ & ->).
    repeat split.
  - intros q s' tr H. apply sat_data_init_Some in H as (lon & _ & ->).
    repeat split.
Qed.

Lemma observer_origin :
  0 * de2ra = 0 ->
  observer_geodetic (Some (mk_qth 0 0 0)) = observer_geodetic None.
Proof.
  intros H. unfold observer_geodetic. simpl. rewrite H. reflexivity.
Qed.

(** C3, as the code has it.  [de2ra] being a non-negative number (so
    that [0 * de2ra] is [0]), the state initialised without an observer is
    the state initialised for an observer at latitude 0, longitude 0,
    altitude 0: azimuth, elevation, range and range rate are computed and
    stored for that observer, and nothing marks them as invalid. *)
Theorem C3_null_observer_reported_as_origin fuel sat :
  0 * de2ra = 0 ->
  option_map fst (sat_data_init fuel sat None) =
  option_map fst (sat_data_init fuel sat (Some (mk_qth 0 0 0))).
Proof.
  intros H. rewrite !sat_data_init_eq.
  unfold initialised, located, observed.
  rewrite (observer_origin H).
  destruct (normalize_lon fuel _) as [[lon tr]|]; reflexivity.
Qed.

(** *** The orbit number *)

Lemma tle_initialised sat qth lon :
  tle (initialised sat qth lon) =
  tle (propagator
         (set_jul_epoch sat (Julian_Date_of_Epoch (epoch (tle sat))))).
Proof.
  unfold initialised. simpl. unfold scaled.
  now destruct (scale_state_frame
    (propagator (set_jul_epoch sat
       (Julian_Date_of_Epoch (epoch (tle sat)))))) as (-> & _).
Qed.



(** *** The sub-satellite longitude *)

Lemma lon_raise_exit fuel :
  forall lon l tr,
    lon_raise fuel lon = Some (l, tr) ->
    (l <? - pi) = false /\
    (is_finite twopi = true -> is_nan lon = false -> is_nan l = false).
Proof.
  induction fuel as [|f IH]; intros lon l tr; simpl; [discriminate|].
  destruct (lon <? - pi) eqn:E.
  - intros H. destruct (IH _ _ _ H) as [H1 H2]. split; [exact H1|].
    intros Hf _. apply H2; [exact Hf|].
    exact (@Binary64.add_not_nan lon (- pi) twopi E Hf).
  - intros H. injection H as <- _. auto.
Qed.

Lemma lon_lower_exit fuel :
  pi = Header.pi_h -> twopi = Header.twopi_h ->
  forall lon l tr,
    lon_lower fuel lon = Some (l, tr) ->
    (lon <? - pi) = false ->
    (pi <? l) = false /\ (l <? - pi) = false /\
    (is_nan lon = false -> is_nan l = false).
Proof.
  intros Hpi Htwopi.
  induction fuel as [|f IH]; intros lon l tr; simpl; [discriminate|].
  destruct (pi <? lon) eqn:E.
  - intros H _.
    assert (Hkeep : (lon - twopi <? - pi) = false).
    { rewrite Hpi, Htwopi. apply Binary64.sub_twopi_not_below.
      now rewrite <- Hpi. }
    destruct (IH _ _ _ H Hkeep) as (H1 & H2 & H3).
    repeat split; try assumption.
    intros _. apply H3.
    apply (@Binary64.sub_not_nan lon pi twopi E).
    rewrite Htwopi. reflexivity.
  - intros H Hlow. injection H as <- _. auto.
Qed.

(** A longitude that is neither below [-pi] nor above [pi] passes both
    loops unchanged; so does [-pi] itself, [pi] being non-negative. *)
Lemma normalize_lon_in_range fuel lon :
  (lon <? - pi) = false -> (pi <? lon) = false ->
  normalize_lon (S fuel) lon = Some (lon, []).
Proof.
  intros H1 H2. unfold normalize_lon. simpl. rewrite H1.
  rewrite bind_ret. now rewrite H2.
Qed.

Lemma normalize_lon_keeps_minus_pi fuel :
  (pi <? - pi) = false ->
  normalize_lon (S fuel) (- pi) = Some (- pi, []).
Proof.
  intros H. apply normalize_lon_in_range; [|exact H].
  apply Binary64.ltb_irrefl.
Qed.

(** [sat_data_init] returns as soon as the longitude loops do. *)
Lemma sat_data_init_returns fuel sat qth :
  (geo_lon (snd (located sat qth)) <? - pi) = false ->
  (pi <? geo_lon (snd (located sat qth))) = false ->
  exists s' tr, sat_data_init (S fuel) sat qth = Some (s', tr).
Proof.
  intros H1 H2. rewrite sat_data_init_eq.
  rewrite (@normalize_lon_in_range fuel _ H1 H2). eauto.
Qed.

(** C5, as the code has it.  With the header's [pi] and [twopi], the
    stored [ssplon] is [Degrees] of the longitude the two loops deliver,
    and that longitude, in radians, lies in the closed interval from
    [-pi] to [pi], both ends included, whenever [Calculate_LatLonAlt]
    returned a number. *)
Theorem C5_longitude_in_closed_interval fuel sat qth s' tr :
  pi = Header.pi_h -> twopi = Header.twopi_h ->
  sat_data_init fuel sat qth = Some (s', tr) ->
  exists l,
    normalize_lon fuel (geo_lon (snd (located sat qth))) = Some (l, []) /\
    ssplon s' = Degrees l /\
    (is_nan (geo_lon (snd (located sat qth))) = false ->
     (- pi <=? l) = true /\ (l <=? pi) = true).
Proof.
  intros Hpi Htwopi H. apply sat_data_init_Some in H as (l & Hn & ->).
  exists l. split; [exact Hn|]. split; [reflexivity|].
  intros Hnan. unfold normalize_lon in Hn.
  apply bind_Some in Hn as (l1 & tr1 & tr2 & Hr & Hl & _).
  destruct (@lon_raise_exit _ _ _ _ Hr) as [Hr1 Hr2].
  destruct (@lon_lower_exit _ Hpi Htwopi _ _ _ Hl Hr1) as (Hl1 & Hl2 & Hl3).
  assert (Hl_nan : is_nan l = false).
  { apply Hl3, Hr2; [rewrite Htwopi; reflexivity|exact Hnan]. }
  assert (Hpi_nan : is_nan pi = false) by (rewrite Hpi; reflexivity).
  assert (Hmpi_nan : is_nan (- pi) = false) by (rewrite Hpi; reflexivity).
  split.
  - exact (@Binary64.not_ltb_leb l (- pi) Hl_nan Hmpi_nan Hl2).
  - exact (@Binary64.not_ltb_leb pi l Hpi_nan Hl_nan Hl1).
Qed.

End Properties.

(** * The properties on concrete runs

    Each statement below is an instance of a theorem above, on the
    collaborators of [Demo], or a run that shows where a property stops. *)

Ltac run_value E :=
  vm_compute in E; first [discriminate E | injection E as <- <-].

(** C8 on the read of 25544 from the damaged file, whose second data line
    starts with '3': the flags and the output fields keep the values they
    had, the name written by the validator is there. *)
Lemma C8_witness :
  exists g sat',
    sat_data_read (C := Demo.damaged_store) 0 Demo.stale 25544 Demo.sat0
    = Some ((2%Z, sat'),
            [Ev_log SAT_LOG_LEVEL_DEBUG; Ev_Get_Next_Tle_Set g;
             Ev_log SAT_LOG_LEVEL_ERROR]) /\
    flags sat' = 255%Z /\ az sat' = 7%float /\ orbit sat' = 7%Z /\
    cstr (sat_name (tle sat')) = cstr (line0 g).
Proof.
  destruct (find (matches (C := Demo.damaged_store) 25544)
              (tle_groups
                 (S (List.length (list_ascii_of_string Demo.damaged)))
                 (list_ascii_of_string Demo.damaged) Demo.stale))
    as [g|] eqn:E; vm_compute in E; [|discriminate E].
  injection E as <-.
  eexists _, _.
  split.
  - exact (proj1 (@C8_invalid_record_is_terminal Demo.damaged_store 0
                    Demo.stale 25544 Demo.sat0 "stations.tle"
                    (list_ascii_of_string Demo.damaged) _
                    eq_refl eq_refl ltac:(vm_compute; reflexivity)
                    ltac:(vm_compute; discriminate))).
  - repeat split; vm_compute; reflexivity.
Defined.

(** C2 fails on the read of 20580, which the lookup places in
    [stations]: the lookup succeeds, the file opens, no record carries the
    number; the result is 0, the code of success, and the structure is the
    one passed in, whatever garbage it held. *)
Lemma C2_returns_success_without_loading :
  forall fuel,
    sat_data_read (C := Demo.good) fuel Demo.stale 20580 Demo.sat0
    = Some ((0%Z, Demo.sat0), []) /\
    tle_lookup (Collaborators := Demo.good) 20580 <> None /\
    fopen (Collaborators := Demo.good)
      (tle_path (C := Demo.good) "stations.tle") <> None.
Proof.
  intros fuel. split; [|split; vm_compute; discriminate].
  rewrite sat_data_read_eq.
  change (tle_lookup 20580) with (Some "stations.tle"%string).
  cbv iota.
  destruct (fopen (tle_path "stations.tle")) as [fp|] eqn:E;
    vm_compute in E; [|discriminate E].
  injection E as <-. vm_compute. reflexivity.
Qed.

(** C4 on the record of [stations]. *)
Lemma C4_witness :
  exists s' tr,
    sat_data_init (C := Demo.good) 2000 Demo.iss None = Some (s', tr) /\
    ma s' = (Degrees (Collaborators := Demo.good) (phase s') * (256 / 360))%float /\
    phase s' = xmo (tle Demo.iss).
Proof.
  destruct (sat_data_init (C := Demo.good) 2000 Demo.iss None)
    as [[s' tr]|] eqn:E; run_value E.
  eexists _, _. split; [reflexivity|].
  destruct (@C4_phase_scaled_to_256 Demo.good 2000 Demo.iss None _ _
              ltac:(vm_compute; reflexivity)) as [Hma Hphase].
  split; [exact Hma|reflexivity].
Defined.

(** C6 fails for an object on its first revolution: the epoch revolution
    number is 0, nothing has elapsed, and the stored orbit number is -1. *)
Lemma C6_first_revolution_is_negative :
  exists s' tr,
    sat_data_init (C := Demo.good) 2000 Demo.first_rev None = Some (s', tr) /\
    revnum (tle Demo.first_rev) = 0%Z /\
    revnum (tle s') = 0%Z /\
    orbit s' = (-1)%Z.
Proof.
  destruct (sat_data_init (C := Demo.good) 2000 Demo.first_rev None)
    as [[s' tr]|] eqn:E; run_value E.
  eexists _, _. repeat split.
Qed.

(** C6 as amended, on the same object. *)
Lemma C6_witness :
  exists s' tr,
    sat_data_init (C := Demo.good) 2000 Demo.first_rev None = Some (s', tr) /\
    tle s' = tle Demo.first_rev /\
    orbit s' = orbit_number (C := Demo.good) 0%float (tle Demo.first_rev) /\
    orbit s' = (-1)%Z.
Proof.
  destruct (sat_data_init (C := Demo.good) 2000 Demo.first_rev None)
    as [[s' tr]|] eqn:E; run_value E.
  eexists _, _. split; [reflexivity|].
  destruct (@C6_orbit_is_revnum_minus_one_plus_floor Demo.good 2000
              Demo.first_rev None _ _ ltac:(vm_compute; reflexivity))
    as (Ht & Ho & _ & Hneg).
  split; [exact Ht|]. split; [exact Ho|].
  apply Hneg; vm_compute; reflexivity.
Defined.


(** C3 fails on the record of [stations]: initialised without an
    observer, the structure holds the azimuth, elevation, range and range
    rate of the observer at latitude 0, longitude 0, altitude 0 -- finite
    numbers written over the zeros that were there -- and is the very
    structure obtained for that observer. *)
Lemma C3_null_observer_values_are_reported :
  exists s' tr tr',
    sat_data_init (C := Demo.good) 2000 Demo.iss None = Some (s', tr) /\
    sat_data_init (C := Demo.good) 2000 Demo.iss (Some (mk_qth 0%float 0%float 0))
    = Some (s', tr') /\
    az Demo.iss = 0%float /\
    (is_finite (az s') && is_finite (el s') && is_finite (range s')
     && (0 <? az s') && (0 <? el s') && (0 <? range s'))%float = true.
Proof.
  destruct (sat_data_init (C := Demo.good) 2000 Demo.iss None)
    as [[s' tr]|] eqn:E; run_value E.
  eexists _, _, _. split; [reflexivity|].
  split; [vm_compute; reflexivity|].
  split; vm_compute; reflexivity.
Qed.

(** C3 as amended, on the record of [stations]. *)
Lemma C3_witness :
  option_map fst (sat_data_init (C := Demo.good) 2000 Demo.iss None) =
  option_map fst
    (sat_data_init (C := Demo.good) 2000 Demo.iss (Some (mk_qth 0%float 0%float 0))).
Proof.
  apply (@C3_null_observer_reported_as_origin Demo.good 2000 Demo.iss).
  vm_compute. reflexivity.
Defined.

(** C5 fails at the lower end: when [Calculate_LatLonAlt] returns [-pi],
    neither loop runs, the longitude stays [-pi], and the stored [ssplon]
    is [Degrees (-pi)], which is not above -180. *)
Lemma C5_minus_pi_is_kept :
  exists s' tr,
    sat_data_init (C := Demo.good) 1 Demo.antimeridian None = Some (s', tr) /\
    geo_lon (snd (located (C := Demo.good) Demo.antimeridian None))
    = (- Header.pi_h)%float /\
    normalize_lon (C := Demo.good) 1 (- Header.pi_h)%float
    = Some ((- Header.pi_h)%float, []) /\
    ssplon s' = Demo.d_Degrees (- Header.pi_h)%float /\
    (- Header.pi_h <? - Header.pi_h)%float = false /\
    (-180 <? ssplon s')%float = false.
Proof.
  destruct (sat_data_init (C := Demo.good) 1 Demo.antimeridian None)
    as [[s' tr]|] eqn:E; run_value E.
  eexists _, _. repeat split.
Qed.

(** C5 as amended, on the record of [stations]: 1316 additions of
    [twopi] bring the longitude into the interval. *)
Lemma C5_witness :
  exists s' tr l,
    sat_data_init (C := Demo.good) 2000 Demo.iss None = Some (s', tr) /\
    ssplon s' = Demo.d_Degrees l /\
    (- Header.pi_h <=? l)%float = true /\ (l <=? Header.pi_h)%float = true.
Proof.
  destruct (sat_data_init (C := Demo.good) 2000 Demo.iss None)
    as [[s' tr]|] eqn:E; run_value E.
  destruct (@C5_longitude_in_closed_interval Demo.good 2000 Demo.iss None
              _ _ eq_refl eq_refl ltac:(vm_compute; reflexivity))
    as (l & _ & Hs & Hin).
  eexists _, _, l. split; [reflexivity|]. split; [exact Hs|].
  apply Hin. vm_compute. reflexivity.
Defined.

(** The two remaining codes, on the same collaborators: no file is known
    for catalogue number 1, and the file named for 7530 does not exist. *)
Example read_of_unknown_number :
  sat_data_read (C := Demo.good) 0 Demo.stale 1 Demo.sat0
  = Some ((1%Z, Demo.sat0), [Ev_log SAT_LOG_LEVEL_ERROR]).
Proof. reflexivity. Qed.

Example read_of_missing_file :
  sat_data_read (C := Demo.good) 0 Demo.stale 7530 Demo.sat0
  = Some ((3%Z, Demo.sat0), [Ev_log SAT_LOG_LEVEL_ERROR]).
Proof. vm_compute. reflexivity. Qed.

(** * Further facts about binary64 arithmetic *)

Module Binary64More.

Import Header.
Import Binary64.
Open Scope float_scope.

Lemma mpi_lower : (2 ^ 52 <= Zpos mpi)%Z.
Proof. vm_compute. discriminate. Qed.

(** A negative integer of magnitude below that of [pi], scaled by 2^-51
    or 2^-50: the double it rounds to, exactly. *)
Lemma small_negative_form d e0 :
  (e0 = -51 \/ e0 = -50)%Z ->
  (Zpos d * 2 ^ (e0 + 51) < Zpos mpi)%Z ->
  exists mz e',
    binary_round prec emax true d e0 = S754_finite true mz e' /\
    ((e' < -51)%Z \/ (e' = (-51)%Z /\ (Zpos mz < Zpos mpi)%Z)).
Proof.
  intros He Hd.
  assert (Hd' : (Zpos d * 2 ^ (e0 + 51) <= Zpos mpi)%Z) by lia.
  pose proof (@bits_bound _ _ He Hd') as Hbits.
  destruct (@binary_round_exact true d e0) as (Hbr & He' & Hv); [lia|lia|].
  rewrite Hbr.
  assert (Hle : (fexp prec emax (Zpos (digits2_pos d) + e0) <= -51)%Z)
    by (unfold fexp, emin, prec, emax; lia).
  revert Hv Hle. generalize (fexp prec emax (Zpos (digits2_pos d) + e0)).
  intros e' Hv Hle. revert Hv. generalize (fst (shl_align d e0 e')).
  intros mz Hv. exists mz, e'. split; [reflexivity|].
  destruct (Z.eq_dec e' (-51)) as [->|Hne]; [right|left; lia].
  split; [reflexivity|]. rewrite Hv.
  now replace (e0 - -51)%Z with (e0 + 51)%Z by lia.
Qed.

(** Comparisons of a negative double with bounds given by their
    mantissa and exponent. *)
Lemma negative_above mz e' p b :
  ((e' < b)%Z \/ (e' = b /\ (Zpos mz < Zpos p)%Z)) ->
  SFltb (S754_finite true p b) (S754_finite true mz e') = true.
Proof.
  intros H. unfold SFltb, SFcompare.
  destruct (Z.compare_spec b e') as [Heq|Hlt|Hgt]; try reflexivity; try lia.
  pose proof (Pos.compare_spec p mz) as Hc. unfold Pos.compare in Hc.
  destruct Hc as [Hc|Hc|Hc]; try reflexivity; subst; lia.
Qed.

Lemma sub_twopi_form x :
  (pi_h <? x) = true -> (x <? twopi_h) = true ->
  exists mz e',
    Prim2SF (x - twopi_h) = S754_finite true mz e' /\
    ((e' < -51)%Z \/ (e' = (-51)%Z /\ (Zpos mz < Zpos mpi)%Z)).
Proof.
  rewrite !ltb_spec, sub_spec, pi_SF, twopi_SF.
  pose proof (Prim2SF_valid x) as Hv.
  destruct (Prim2SF x) as [s|s| |s m e]; try (destruct s); try discriminate.
  intros Hlt Hlt2. simpl in Hv. apply bounded_digits in Hv as (H53 & H52 & Hr).
  pose proof mpi_bound as Hm. pose proof mpi_lower as Hm'.
  assert (Hcmp : (-51 < e)%Z \/ (e = (-51)%Z /\ (Zpos mpi < Zpos m)%Z)).
  { unfold SFltb, SFcompare in Hlt.
    destruct (Z.compare_spec (-51) e) as [He|He|He]; try discriminate;
      [right|left; assumption].
    split; [auto|].
    pose proof (Pos.compare_spec mpi m) as Hc. unfold Pos.compare in Hc.
    destruct Hc; try discriminate. assumption. }
  assert (Hcmp2 : (e < -50)%Z \/ (e = (-50)%Z /\ (Zpos m < Zpos mpi)%Z)).
  { unfold SFltb, SFcompare in Hlt2.
    destruct (Z.compare_spec e (-50)) as [He|He|He]; try discriminate;
      [right|left; assumption].
    split; [auto|].
    pose proof (Pos.compare_spec m mpi) as Hc. unfold Pos.compare in Hc.
    destruct Hc; try discriminate. assumption. }
  unfold SF64sub, SFsub, cond_Zopp.
  assert (Hz : (Z.min e (-50) <= e)%Z /\ (Z.min e (-50) <= -50)%Z) by lia.
  destruct Hz as [Hz1 Hz2].
  rewrite (@shl_align_value m _ _ Hz1), (@shl_align_value mpi _ _ Hz2).
  destruct Hcmp as [He|[He Hgt]].
  - assert (e = (-50)%Z) as -> by lia.
    destruct Hcmp2 as [?|[_ Hlt3]]; [lia|].
    specialize (H52 ltac:(lia)).
    replace (Z.min (-50) (-50)) with (-50)%Z by reflexivity.
    change (2 ^ (-50 - -50))%Z with 1%Z. rewrite !Z.mul_1_r.
    destruct (Zpos m - Zpos mpi)%Z as [|p|d] eqn:Ed; try lia.
    apply small_negative_form; [now right|].
    change (2 ^ (-50 + 51))%Z with 2%Z. lia.
  - subst e. replace (Z.min (-51) (-50)) with (-51)%Z by reflexivity.
    change (2 ^ (-51 - -51))%Z with 1%Z. change (2 ^ (-50 - -51))%Z with 2%Z.
    destruct (Zpos m * 1 - Zpos mpi * 2)%Z as [|p|d] eqn:Ed; try lia.
    apply small_negative_form; [now left|].
    change (2 ^ (-51 + 51))%Z with 1%Z. lia.
Qed.

(** What follows for the loop tests. *)
Lemma sub_twopi_half_open x :
  (pi_h <? x) = true -> (x <? twopi_h) = true ->
  (- pi_h <? x - twopi_h) = true /\
  (pi_h <? x - twopi_h) = false /\
  (x - twopi_h <=? pi_h) = true.
Proof.
  intros H1 H2. destruct (sub_twopi_form x H1 H2) as (mz & e' & Hf & Hb).
  rewrite !ltb_spec, leb_spec, opp_spec, pi_SF, Hf.
  split; [|split; reflexivity].
  exact (negative_above mz e' mpi (-51) Hb).
Qed.

(** A double that is at least zero, against [-pi] and [pi]. *)
Lemma nonneg_against_minus_pi x :
  (0 <=? x) = true ->
  (x <? - pi_h) = false /\ (- pi_h <? x) = true /\ is_nan x = false.
Proof.
  unfold is_nan.
  rewrite leb_spec, !ltb_spec, eqb_spec, opp_spec, pi_SF.
  change (Prim2SF 0) with (S754_zero false).
  destruct (Prim2SF x) as [s|s| |s m e]; try (destruct s);
    try discriminate; intros _; repeat split;
    unfold SFeqb, SFcompare;
    now rewrite Z.compare_refl, Pos.compare_cont_refl.
Qed.

Lemma nan_compares_false x y :
  is_nan x = true -> (x <? y) = false /\ (y <? x) = false.
Proof.
  intros H.
  assert (Hx : Prim2SF x = S754_nan).
  { destruct (Prim2SF x) as [s|s| |s m e] eqn:E; try reflexivity;
      rewrite (SF_is_nan x) in H; try discriminate; rewrite E; discriminate. }
  rewrite !ltb_spec, Hx. split; [reflexivity|].
  destruct (Prim2SF y) as [s|s| |s m e]; reflexivity.
Qed.

End Binary64More.

(** * Further properties of [sat_data_read] *)

Section MoreOnReading.

Context {C : Collaborators}.


(** The run of a read, by cases on what the file system and the file
    give. *)
Lemma sat_data_read_cases fuel tle_str0 catnum sat code sat' tr :
  sat_data_read fuel tle_str0 catnum sat = Some ((code, sat'), tr) ->
  (tle_lookup catnum = None /\ code = 1%Z /\ sat' = sat /\
   tr = [Ev_log SAT_LOG_LEVEL_ERROR]) \/
  (exists filename,
      tle_lookup catnum = Some filename /\
      fopen (tle_path filename) = None /\ code = 3%Z /\ sat' = sat /\
      tr = [Ev_log SAT_LOG_LEVEL_ERROR]) \/
  (exists filename fp,
      tle_lookup catnum = Some filename /\
      fopen (tle_path filename) = Some fp /\
      ((find (matches catnum) (tle_groups (S (List.length fp)) fp tle_str0)
        = None /\ code = 0%Z /\ sat' = sat /\ tr = []) \/
       (exists g rc t,
           find (matches catnum)
             (tle_groups (S (List.length fp)) fp tle_str0) = Some g /\
           Get_Next_Tle_Set g (tle sat) = (rc, t) /\
           ((rc <> 1%Z /\ code = 2%Z /\ sat' = set_tle sat t /\
             tr = [Ev_log SAT_LOG_LEVEL_DEBUG; Ev_Get_Next_Tle_Set g;
                   Ev_log SAT_LOG_LEVEL_ERROR]) \/
            (rc = 1%Z /\ code = 0%Z /\
             exists s1,
               let s0 := set_flags (set_tle sat t) 0%Z in
               let si := init_variable_fields (select_ephemeris s0) in
               sat_data_init fuel si None =
               Some (sat', [Ev_sat_data_init si None; propagation_event s1])
               /\
               tr = [Ev_log SAT_LOG_LEVEL_DEBUG; Ev_Get_Next_Tle_Set g;
                     Ev_log SAT_LOG_LEVEL_DEBUG; Ev_select_ephemeris s0;
                     Ev_sat_data_init si None; propagation_event s1]))))).
Proof.
  rewrite sat_data_read_eq.
  destruct (tle_lookup catnum) as [filename|] eqn:El;
    [|intros H; injection H as <- <- <-; left; repeat split].
  destruct (fopen (tle_path filename)) as [fp|] eqn:Ef;
    [|intros H; injection H as <- <- <-; right; left; exists filename;
      repeat split; assumption].
  intros H. right. right. exists filename, fp.
  do 2 (split; [reflexivity || assumption|]).
  destruct (find _ _) as [g|] eqn:Efind;
    [|injection H as <- <- <-; left; repeat split].
  right. rewrite load_record_eq in H.
  destruct (Get_Next_Tle_Set g (tle sat)) as [rc t] eqn:Eg.
  exists g, rc, t. do 2 (split; [first [reflexivity | assumption]|]).
  destruct (rc =? 1)%Z eqn:Erc; simpl negb in H; cbv iota zeta in H.
  - apply Z.eqb_eq in Erc. right.
    destruct (sat_data_init fuel _ None) as [[s' tr']|] eqn:Ei;
      [|discriminate].
    injection H as <- <- <-. do 2 (split; [assumption || reflexivity|]).
    pose proof Ei as Ei'. rewrite sat_data_init_eq in Ei'.
    destruct (normalize_lon fuel _) as [[lon tr0]|]; [|discriminate].
    injection Ei' as _ <-. eexists. cbv zeta. split; [exact Ei|reflexivity].
  - apply Z.eqb_neq in Erc. left. injection H as <- <- <-. repeat split.
    assumption.
Qed.

(** X1.  The code returned is 0, 1, 2 or 3: 1 exactly when [tle_lookup]
    gives no file name, 3 exactly when it gives one and [fopen] fails on
    the path built from it, 2 exactly when the validator was called on a
    content of [tle_str] and did not answer 1. *)
Theorem return_code_characterised fuel tle_str0 catnum sat code sat' tr :
  sat_data_read fuel tle_str0 catnum sat = Some ((code, sat'), tr) ->
  (code = 0 \/ code = 1 \/ code = 2 \/ code = 3)%Z /\
  (code = 1%Z <-> tle_lookup catnum = None) /\
  (code = 3%Z <->
   exists filename,
     tle_lookup catnum = Some filename /\ fopen (tle_path filename) = None) /\
  (code = 2%Z <->
   exists line,
     In (Ev_Get_Next_Tle_Set line) tr /\
     fst (Get_Next_Tle_Set line (tle sat)) <> 1%Z).
Proof.
  intros H. apply sat_data_read_cases in H.
  destruct H as [(Hl & -> & -> & ->)
                |[(f & Hl & Hf & -> & -> & ->)
                 |(f & fp & Hl & Hf &
                   [(Hn & -> & -> & ->)
                   |(g & rc & t & Hg & Hv &
                     [(Hrc & -> & -> & ->)
                     |(-> & -> & s1 & Hi & ->)])])]].
  - repeat split; auto; try discriminate.
    + intros (f & Hf & _). congruence.
    + intros (line & [Hin|[]] & _). discriminate.
  - repeat split; auto; try discriminate; try congruence.
    + eauto.
    + intros (line & [Hin|[]] & _). discriminate.
  - repeat split; auto; try discriminate; try congruence.
    + intros (f' & Hf' & Hn'). congruence.
    + intros (line & [] & _).
  - repeat split; auto; try discriminate; try congruence.
    + intros (f' & Hf' & Hn'). congruence.
    + intros _. exists g. split; [simpl; auto|]. now rewrite Hv.
  - repeat split; auto; try discriminate; try congruence.
    + intros (f' & Hf' & Hn'). congruence.
    + intros (line & Hin & Hne). simpl in Hin.
      destruct Hin as [Hin|[Hin|[Hin|[Hin|[Hin|[Hin|[]]]]]]];
        try discriminate.
      * injection Hin as <-. rewrite Hv in Hne. now elim Hne.
      * unfold propagation_event in Hin.
        destruct (deep_space s1); discriminate.
Qed.


(** X3.  As long as the validator has not been called the structure is
    returned as it was passed in; with code 1 or 3 nothing was done but
    logging one error. *)
Theorem untouched_unless_matched fuel tle_str0 catnum sat code sat' tr :
  sat_data_read fuel tle_str0 catnum sat = Some ((code, sat'), tr) ->
  (count is_validation tr = 0%nat -> sat' = sat) /\
  (code = 1%Z \/ code = 3%Z ->
   sat' = sat /\ tr = [Ev_log SAT_LOG_LEVEL_ERROR]).
Proof.
  intros H. apply sat_data_read_cases in H.
  destruct H as [(Hl & -> & -> & ->)
                |[(f & Hl & Hf & -> & -> & ->)
                 |(f & fp & Hl & Hf &
                   [(Hn & -> & -> & ->)
                   |(g & rc & t & Hg & Hv &
                     [(Hrc & -> & -> & ->)
                     |(-> & -> & s1 & Hi & ->)])])]];
    split; auto; try (intros [?|?]; discriminate); try discriminate.
Qed.

(** X4.  When a record is found and accepted, the flags the structure
    held on entry have no influence on anything: result, structure and
    trace of the read are the same for any value of them, the flags being
    cleared before [select_ephemeris] sees the structure. *)
Theorem stale_flags_never_reach_dispatch
    fuel tle_str0 catnum sat stale_flags filename fp g t :
  tle_lookup catnum = Some filename ->
  fopen (tle_path filename) = Some fp ->
  find (matches catnum) (tle_groups (S (List.length fp)) fp tle_str0)
  = Some g ->
  Get_Next_Tle_Set g (tle sat) = (1%Z, t) ->
  sat_data_read fuel tle_str0 catnum (set_flags sat stale_flags) =
  sat_data_read fuel tle_str0 catnum sat.
Proof.
  intros Hl Hf Hg Hv.
  rewrite !sat_data_read_eq, Hl, Hf, Hg, !load_record_eq.
  change (tle (set_flags sat stale_flags)) with (tle sat). rewrite Hv.
  reflexivity.
Qed.

End MoreOnReading.

(** * Further properties of [sat_data_init] *)

Section MoreOnInitialising.

Context {C : Collaborators}.

Open Scope float_scope.

Lemma scale_state_keeps s :
  jul_epoch (scale_state s) = jul_epoch s /\
  jul_utc (scale_state s) = jul_utc s /\
  tsince (scale_state s) = tsince s /\
  aos (scale_state s) = aos s /\ los (scale_state s) = los s /\
  ra (scale_state s) = ra s /\ dec (scale_state s) = dec s.
Proof.
  unfold scale_state. destruct (Convert_Sat_State (pos s) (vel s)) as [p v].
  repeat split.
Qed.

Lemma initialised_keeps sat qth lon :
  let p := propagator
             (set_jul_epoch sat (Julian_Date_of_Epoch (epoch (tle sat)))) in
  flags (initialised sat qth lon) = flags p /\
  priv (initialised sat qth lon) = priv p /\
  jul_epoch (initialised sat qth lon) = jul_epoch p /\
  jul_utc (initialised sat qth lon) = jul_utc p /\
  tsince (initialised sat qth lon) = tsince p /\
  aos (initialised sat qth lon) = aos p /\
  los (initialised sat qth lon) = los p /\
  ra (initialised sat qth lon) = ra p /\
  dec (initialised sat qth lon) = dec p.
Proof.
  cbv zeta. unfold initialised. simpl. unfold scaled.
  set (p := propagator _).
  destruct (scale_state_frame p) as (_ & Hf & _ & Hp).
  destruct (scale_state_keeps p) as (H1 & H2 & H3 & H4 & H5 & H6 & H7).
  repeat split; assumption.
Qed.

(** X5.  [sat_data_init] writes neither the element set, the flags, the
    coefficient blocks, the epoch date it has just stored, nor [jul_utc],
    [tsince], [aos], [los], [ra] and [dec]: on return they are as the
    propagator left them, the epoch date being [Julian_Date_of_Epoch] of
    the entry element set unless the propagator changed it. *)
Theorem init_keeps_propagator_fields fuel sat qth s' tr :
  sat_data_init fuel sat qth = Some (s', tr) ->
  let s1 := set_jul_epoch sat (Julian_Date_of_Epoch (epoch (tle sat))) in
  let p := propagator s1 in
  jul_epoch s1 = Julian_Date_of_Epoch (epoch (tle sat)) /\
  flags s' = flags p /\ priv s' = priv p /\ jul_epoch s' = jul_epoch p /\
  jul_utc s' = jul_utc p /\ tsince s' = tsince p /\
  aos s' = aos p /\ los s' = los p /\ ra s' = ra p /\ dec s' = dec p.
Proof.
  intros H. apply sat_data_init_Some in H as (lon & _ & ->). cbv zeta.
  split; [reflexivity|]. apply initialised_keeps.
Qed.

Lemma observed_position sat qth :
  (forall t p v g, fst (fst (Calculate_Obs t p v g)) = p) ->
  located sat qth = located sat None.
Proof.
  intros Hobs. unfold located, observed. now rewrite !Hobs.
Qed.

(** X6.  The observer reaches the result only through [Calculate_Obs]:
    speed, [ma], phase, orbit number, element set and flags are the same
    for any two observers, and when [Calculate_Obs] hands the position back
    unchanged so are the sub-satellite point, the altitude, the footprint
    and the position. *)
Theorem observer_reaches_only_look_angles fuel sat q1 q2 s1 s2 tr1 tr2 :
  sat_data_init fuel sat q1 = Some (s1, tr1) ->
  sat_data_init fuel sat q2 = Some (s2, tr2) ->
  (velo s1 = velo s2 /\ ma s1 = ma s2 /\ phase s1 = phase s2 /\
   orbit s1 = orbit s2 /\ tle s1 = tle s2 /\ flags s1 = flags s2) /\
  ((forall t p v g, fst (fst (Calculate_Obs t p v g)) = p) ->
   ssplat s1 = ssplat s2 /\ ssplon s1 = ssplon s2 /\ alt s1 = alt s2 /\
   footprint s1 = footprint s2 /\ pos s1 = pos s2).
Proof.
  intros H1 H2.
  apply sat_data_init_Some in H1 as (l1 & Hn1 & ->).
  apply sat_data_init_Some in H2 as (l2 & Hn2 & ->).
  split; [repeat split|].
  intros Hobs.
  pose proof (observed_position sat q1 Hobs) as E1.
  pose proof (observed_position sat q2 Hobs) as E2.
  rewrite E1 in Hn1. rewrite E2 in Hn2. rewrite Hn1 in Hn2.
  injection Hn2 as <-.
  unfold initialised. simpl. rewrite E1, E2. repeat split.
Qed.

Lemma land_bit_6 f : negb (Z.land f 64 =? 0)%Z = Z.testbit f 6.
Proof.
  assert (H : Z.land f 64 = if Z.testbit f 6 then 64%Z else 0%Z).
  { apply Z.bits_inj'. intros n Hn. rewrite Z.land_spec.
    change 64%Z with (2 ^ 6)%Z. rewrite Z.pow2_bits_eqb by lia.
    destruct (Z.eqb_spec 6 n) as [<-|Hne].
    - rewrite andb_true_r. destruct (Z.testbit f 6) eqn:E.
      + now rewrite Z.pow2_bits_eqb by lia.
      + now rewrite Z.bits_0.
    - rewrite andb_false_r. destruct (Z.testbit f 6).
      + rewrite Z.pow2_bits_eqb by lia. symmetry. now apply Z.eqb_neq.
      + now rewrite Z.bits_0. }
  rewrite H. now destruct (Z.testbit f 6).
Qed.

End MoreOnInitialising.

(** * Further properties of the longitude loops *)

Section MoreOnLongitude.

Context {C : Collaborators}.

Open Scope float_scope.

(** A longitude within one turn above zero: at most one subtraction. *)
Lemma normalize_lon_one_turn fuel lon :
  pi = Header.pi_h -> twopi = Header.twopi_h ->
  (0 <=? lon) = true -> (lon <? twopi) = true ->
  let l := if pi <? lon then lon - twopi else lon in
  normalize_lon (S (S fuel)) lon = Some (l, []) /\
  (- pi <? l) = true /\ (l <=? pi) = true.
Proof.
  intros Hpi Htwopi H0 H2. cbv zeta.
  destruct (Binary64More.nonneg_against_minus_pi lon H0) as (Hlow & Hab & Hn).
  rewrite <- Hpi in Hlow, Hab.
  unfold normalize_lon.
  assert (Hr : lon_raise (S (S fuel)) lon = ret lon) by (simpl; now rewrite Hlow).
  rewrite Hr, bind_ret.
  destruct (pi <? lon) eqn:E.
  - assert (E' : (Header.pi_h <? lon) = true) by now rewrite <- Hpi.
    assert (E2 : (lon <? Header.twopi_h) = true) by now rewrite <- Htwopi.
    destruct (Binary64More.sub_twopi_half_open lon E' E2) as (Ha & Hb & Hc).
    rewrite <- Hpi, <- Htwopi in Ha, Hb, Hc.
    split; [|split; assumption].
    simpl. now rewrite E, Hb.
  - split; [simpl; now rewrite E|]. split; [assumption|].
    apply Binary64.not_ltb_leb; [| assumption | assumption].
    rewrite Hpi. reflexivity.
Qed.

(** X8.  With the header's [pi] and [twopi], a sub-satellite longitude
    that [Calculate_LatLonAlt] returns in the range from 0 up to, not
    including, [twopi] makes [sat_data_init] return after at most one
    subtraction: the longitude is kept when it is at most [pi], lowered by
    [twopi] otherwise, and the stored radian value is above [-pi] and at
    most [pi]. *)
Theorem one_turn_longitude_is_half_open fuel sat qth :
  pi = Header.pi_h -> twopi = Header.twopi_h ->
  let lon := geo_lon (snd (located sat qth)) in
  (0 <=? lon) = true -> (lon <? twopi) = true ->
  exists s' tr l,
    sat_data_init (S (S fuel)) sat qth = Some (s', tr) /\
    ssplon s' = Degrees l /\
    l = (if pi <? lon then lon - twopi else lon) /\
    (- pi <? l) = true /\ (l <=? pi) = true.
Proof.
  intros Hpi Htwopi lon H0 H2.
  destruct (normalize_lon_one_turn fuel lon Hpi Htwopi H0 H2)
    as (Hn & Ha & Hb).
  rewrite sat_data_init_eq. fold lon. rewrite Hn.
  eexists _, _, _. split; [reflexivity|]. split; [reflexivity|].
  split; [reflexivity|]. split; assumption.
Qed.

(** A step that does not change the longitude is repeated for ever. *)
Lemma lon_lower_stuck lon :
  (pi <? lon) = true -> lon - twopi = lon ->
  forall fuel, lon_lower fuel lon = None.
Proof.
  intros H He fuel. induction fuel as [|f IH]; [reflexivity|].
  simpl. now rewrite H, He.
Qed.

Lemma lon_raise_stuck lon :
  (lon <? - pi) = true -> lon + twopi = lon ->
  forall fuel, lon_raise fuel lon = None.
Proof.
  intros H He fuel. induction fuel as [|f IH]; [reflexivity|].
  simpl. now rewrite H, He.
Qed.

(** X9.  When the longitude [Calculate_LatLonAlt] returns lies outside
    [-pi, pi] and is so large in magnitude that adding or subtracting
    [twopi] gives the same double back (an infinity, or a finite value
    such as 2^60), the loop never ends: [sat_data_init] does not return,
    whatever the number of iterations allowed. *)
Theorem absorbed_turn_never_returns sat qth :
  let lon := geo_lon (snd (located sat qth)) in
  ((pi <? lon) = true /\ (lon <? - pi) = false /\ lon - twopi = lon) \/
  ((lon <? - pi) = true /\ lon + twopi = lon) ->
  forall fuel, sat_data_init fuel sat qth = None.
Proof.
  intros lon H fuel. rewrite sat_data_init_eq. fold lon.
  assert (Hn : normalize_lon fuel lon = None).
  { unfold normalize_lon. destruct H as [(Hu & Hl & He)|(Hl & He)].
    - destruct fuel as [|f]; [reflexivity|].
      assert (Hr : lon_raise (S f) lon = ret lon) by (simpl; now rewrite Hl).
      rewrite Hr, bind_ret. now apply lon_lower_stuck.
    - now rewrite (lon_raise_stuck lon Hl He fuel). }
  now rewrite Hn.
Qed.

(** X10.  A longitude that is not a number fails both loop tests: it
    is handed to [Degrees] as it is, and [sat_data_init] returns. *)
Theorem nan_longitude_is_stored fuel sat qth :
  let lon := geo_lon (snd (located sat qth)) in
  is_nan lon = true ->
  exists s' tr,
    sat_data_init (S fuel) sat qth = Some (s', tr) /\
    normalize_lon (S fuel) lon = Some (lon, []) /\
    ssplon s' = Degrees lon.
Proof.
  intros lon H.
  destruct (Binary64More.nan_compares_false lon (- pi) H) as [H1 _].
  destruct (Binary64More.nan_compares_false lon pi H) as [_ H2].
  pose proof (@normalize_lon_in_range _ fuel lon H1 H2) as Hn.
  rewrite sat_data_init_eq. fold lon. rewrite Hn.
  eexists _, _. repeat split.
Qed.

End MoreOnLongitude.

(** * Further properties of the reading loop *)

(** ** [fgets] on lines *)

Lemma fgets_chars_line l :
  forall n rest,
    forallb (fun c => negb (Ascii.eqb c newline)) l = true ->
    (List.length l < n)%nat ->
    fgets_chars n (l ++ newline :: rest) = (l ++ [newline], rest).
Proof.
  induction l as [|c l IH]; intros n rest Hl Hn.
  - destruct n as [|n]; [simpl in Hn; lia|]. reflexivity.
  - destruct n as [|n]; [simpl in Hn; lia|]. simpl in Hl, Hn |- *.
    apply andb_prop in Hl as [Hc Hl].
    destruct (Ascii.eqb c newline); [discriminate|].
    rewrite IH by (assumption || lia). reflexivity.
Qed.

Lemma fgets_chars_bound n :
  forall fp l r, fgets_chars n fp = (l, r) -> (List.length l <= n)%nat.
Proof.
  induction n as [|n IH]; intros fp l r; simpl.
  - intros H. injection H as <- _. simpl. lia.
  - destruct fp as [|c fp'].
    + intros H. injection H as <- _. simpl. lia.
    + destruct (Ascii.eqb c newline).
      * intros H. injection H as <- _. simpl. lia.
      * destruct (fgets_chars n fp') as [l' r'] eqn:E.
        intros H. injection H as <- _. simpl. apply IH in E. lia.
Qed.

Lemma plain_line_parts l :
  plain_line l = true ->
  (List.length l <= 78)%nat /\
  forallb (fun c => negb (Ascii.eqb c newline)) l = true /\
  forallb (fun c => negb (Ascii.eqb c NUL)) (text_line l) = true.
Proof.
  unfold plain_line, text_line. intros H. apply andb_prop in H as [Hlen Hall].
  apply Nat.leb_le in Hlen. split; [assumption|].
  rewrite forallb_app. simpl.
  induction l as [|c l IH]; [split; reflexivity|].
  simpl in Hall |- *. apply andb_prop in Hall as [Hc Hall].
  apply andb_prop in Hc as [Hc1 Hc2]. rewrite Hc1, Hc2. simpl.
  apply IH; [simpl in Hlen; lia|assumption].
Qed.

Lemma fgets_line s l rest :
  plain_line l = true ->
  fgets s 80 (l ++ newline :: rest) =
  (Some (text_line l ++ NUL :: skipn (S (List.length (text_line l))) s), rest).
Proof.
  intros H. apply plain_line_parts in H as (Hlen & Hnl & _).
  unfold fgets. change (80 - 1)%nat with 79%nat.
  rewrite fgets_chars_line by (assumption || lia).
  unfold text_line. destruct (l ++ [newline]) as [|c l'] eqn:E; [|reflexivity].
  now destruct l.
Qed.

Lemma cstr_prefix a r :
  forallb (fun c => negb (Ascii.eqb c NUL)) a = true ->
  cstr (a ++ NUL :: r) = string_of_list_ascii a.
Proof.
  induction a as [|c a IH]; simpl; intros H; [reflexivity|].
  apply andb_prop in H as [Hc Ha].
  destruct (Ascii.eqb c NUL); [discriminate|]. now rewrite IH.
Qed.

Lemma cstr_length_app l r :
  (String.length (cstr (l ++ NUL :: r)) <= List.length l)%nat.
Proof.
  induction l as [|c l IH]; simpl; [lia|].
  destruct (Ascii.eqb c NUL); simpl; lia.
Qed.

Lemma fgets_keeps_size s fp s' fp' :
  List.length s = 80%nat -> fgets s 80 fp = (Some s', fp') ->
  List.length s' = 80%nat /\ (String.length (cstr s') <= 79)%nat.
Proof.
  intros Hs. unfold fgets. change (80 - 1)%nat with 79%nat.
  destruct (fgets_chars 79 fp) as [l r] eqn:E.
  apply fgets_chars_bound in E.
  destruct l as [|c l]; [discriminate|].
  intros H. injection H as <- _. split.
  - change (List.length ((c :: l) ++ NUL
                            :: skipn (S (List.length (c :: l))) s) = 80%nat).
    rewrite length_app. cbn [List.length] in E |- *.
    rewrite length_skipn. lia.
  - etransitivity; [apply (cstr_length_app (c :: l))|exact E].
Qed.

Lemma fgets_row_keeps_size row fp row' fp' :
  List.length row = 80%nat -> fgets_row row fp = (row', fp') ->
  List.length row' = 80%nat.
Proof.
  intros Hs. unfold fgets_row.
  destruct (fgets row 80 fp) as [[r|] f] eqn:E; intros H; injection H as <- _.
  - now destruct (@fgets_keeps_size _ _ _ _ Hs E).
  - assumption.
Qed.

Lemma tle_groups_S k fp tle_str :
  tle_groups (S k) fp tle_str =
  match fgets (line0 tle_str) 80 fp with
  | (None, _) => []
  | (Some row0, fp) =>
      let (row1, fp) := fgets_row (line1 tle_str) fp in
      let (row2, fp) := fgets_row (line2 tle_str) fp in
      let tle_str := mk_tle_buf row0 row1 row2 in
      tle_str :: tle_groups k fp tle_str
  end.
Proof. reflexivity. Qed.


Lemma tle_groups_at_end k tle_str : tle_groups k [] tle_str = [].
Proof. destruct k; reflexivity. Qed.

Lemma catstr_of_blank row :
  catstr_of (newline :: NUL :: skipn 2 row) = catstr_of row.
Proof.
  unfold catstr_of. f_equal.
  destruct row as [|a [|b row]]; reflexivity.
Qed.

Section MoreOnTheLoop.

Context {C : Collaborators}.

(** X11.  A file made of records of three plain lines is examined
    record by record: the successive contents of [tle_str] hold, as C
    strings, the name and the two data lines of each record in turn, each
    with its newline, whatever the array held before. *)
Theorem plain_file_is_read_by_records rs :
  forall k tle_str0,
    forallb plain_record rs = true ->
    (List.length (file_text rs) < k)%nat ->
    map rows_as_strings (tle_groups k (file_text rs) tle_str0) =
    map record_as_strings rs.
Proof.
  induction rs as [|[[name l1] l2] rs IH]; intros k b Hp Hk.
  - simpl. now rewrite tle_groups_at_end.
  - destruct k as [|k]; [lia|].
    simpl in Hp. apply andb_prop in Hp as [Hr Hp].
    apply andb_prop in Hr as [Hr H2]. apply andb_prop in Hr as [H0 H1].
    assert (Et : file_text ((name, l1, l2) :: rs) =
                 name ++ newline :: l1 ++ newline :: l2 ++ newline ::
                 file_text rs).
    { unfold file_text. simpl. unfold text_line.
      rewrite <- !app_assoc. reflexivity. }
    rewrite Et in Hk |- *. rewrite tle_groups_S.
    rewrite (fgets_line _ _ _ H0). unfold fgets_row.
    rewrite (fgets_line _ _ _ H1), (fgets_line _ _ _ H2).
    cbn [map]. f_equal.
    + destruct (plain_line_parts _ H0) as (_ & _ & N0).
      destruct (plain_line_parts _ H1) as (_ & _ & N1).
      destruct (plain_line_parts _ H2) as (_ & _ & N2).
      unfold rows_as_strings, record_as_strings. cbn [line0 line1 line2].
      now rewrite !cstr_prefix by assumption.
    + apply IH; [assumption|].
      rewrite !length_app in Hk. cbn [List.length] in Hk.
      rewrite !length_app in Hk. cbn [List.length] in Hk.
      rewrite !length_app in Hk. cbn [List.length] in Hk. lia.
Qed.



(** X13.  The rows of [tle_str] being 80 bytes each, every content the
    loop examines has rows of 80 bytes; the name row holds a terminated
    string of at most 79 characters, and the string handed to
    [g_ascii_strtod] has at most five. *)
Theorem rows_stay_in_bounds k :
  forall fp tle_str,
    rows_sized tle_str ->
    Forall (fun g => rows_sized g /\
                     (String.length (cstr (line0 g)) <= 79)%nat /\
                     (String.length (cstr (catstr_of (line1 g))) <= 5)%nat)
           (tle_groups k fp tle_str).
Proof.
  induction k as [|k IH]; intros fp b (S0 & S1 & S2); [constructor|].
  rewrite tle_groups_S.
  destruct (fgets (line0 b) 80 fp) as [[row0|] fp1] eqn:E0; [|constructor].
  destruct (fgets_row (line1 b) fp1) as [row1 fp2] eqn:E1.
  destruct (fgets_row (line2 b) fp2) as [row2 fp3] eqn:E2.
  destruct (@fgets_keeps_size _ _ _ _ S0 E0) as [L0 N0].
  pose proof (@fgets_row_keeps_size _ _ _ _ S1 E1) as L1.
  pose proof (@fgets_row_keeps_size _ _ _ _ S2 E2) as L2.
  assert (Hs : rows_sized (mk_tle_buf row0 row1 row2))
    by (repeat split; assumption).
  constructor; [|apply IH; exact Hs].
  split; [exact Hs|]. split; [exact N0|].
  unfold catstr_of. cbn [line1].
  etransitivity; [apply cstr_length_app|]. rewrite length_map. simpl. lia.
Qed.

(** X14.  The five bytes of the catalogue number are copied from row 1
    without regard to its terminator: when the line read into row 1 is
    empty, the row receives the newline and a terminator, bytes 2 to 6
    keep what an earlier read (or nothing) left there, and the comparison
    with [catnum] is made on them. *)
Theorem blank_line_compares_earlier_bytes row rest catnum r0 r2 r0' r2' :
  let row' := fst (fgets_row row (newline :: rest)) in
  row' = newline :: NUL :: skipn 2 row /\
  snd (fgets_row row (newline :: rest)) = rest /\
  cstr row' = String newline EmptyString /\
  catstr_of row' = catstr_of row /\
  matches catnum (mk_tle_buf r0 row' r2) =
  matches catnum (mk_tle_buf r0' row r2').
Proof.
  cbv zeta.
  assert (E : fgets_row row (newline :: rest) =
              (newline :: NUL :: skipn 2 row, rest)) by reflexivity.
  rewrite E. cbn [fst snd].
  split; [reflexivity|]. split; [reflexivity|]. split; [reflexivity|].
  split; [apply catstr_of_blank|].
  unfold matches, catnr_of. cbn [line1]. now rewrite catstr_of_blank.
Qed.

End MoreOnTheLoop.

(** * Runs that need not return *)

Lemma bind_t_emit A (e : event) (k : T A) :
  bind_t (emit_t e) (fun _ => k) = (e :: fst k, snd k).
Proof. unfold bind_t, emit_t. destruct k as [tr b]. reflexivity. Qed.

Lemma returned_lift A (m : M A) : returned (lift m) = m.
Proof. destruct m as [[a tr]|]; reflexivity. Qed.

Section RunsThatNeedNotReturn.

Context {C : Collaborators}.

Open Scope float_scope.

Lemma propagate_at_epoch_t_eq sat :
  propagate_at_epoch_t sat = ([propagation_event sat], Some (propagator sat)).
Proof.
  unfold propagate_at_epoch_t, propagator, propagation_event.
  destruct (deep_space sat); reflexivity.
Qed.

(** The calls of [sat_data_init] are made before the longitude loops:
    they are the same whether or not the loops end. *)
Lemma sat_data_init_t_eq fuel sat qth :
  sat_data_init_t fuel sat qth =
  ([Ev_sat_data_init sat qth;
    propagation_event
      (set_jul_epoch sat (Julian_Date_of_Epoch (epoch (tle sat))))],
   match normalize_lon fuel (geo_lon (snd (located sat qth))) with
   | Some (lon, _) => Some (initialised sat qth lon)
   | None => None
   end).
Proof.
  unfold sat_data_init_t. rewrite bind_t_emit.
  rewrite propagate_at_epoch_t_eq. unfold bind_t. cbv beta iota.
  unfold initialised, located, observed, scaled.
  set (jul := Julian_Date_of_Epoch (epoch (tle sat))).
  set (s2 := scale_state (propagator (set_jul_epoch sat jul))).
  destruct (Calculate_Obs jul (pos s2) (vel s2) (observer_geodetic qth))
    as [[p v] obs] eqn:Eo.
  simpl fst; simpl snd.
  change (pos (set_vel (set_pos s2 p) v)) with p.
  destruct (Calculate_LatLonAlt jul p) as [p' g] eqn:El.
  simpl fst; simpl snd.
  destruct (normalize_lon fuel (geo_lon g)) as [[lon tr]|] eqn:En;
    [|reflexivity].
  apply normalize_lon_trace in En. subst tr. reflexivity.
Qed.

Lemma load_record_t_eq fuel g ec sat :
  load_record_t fuel g ec sat =
  let '(rc, t) := Get_Next_Tle_Set g (tle sat) in
  if negb (rc =? 1)%Z then
    ([Ev_log SAT_LOG_LEVEL_DEBUG; Ev_Get_Next_Tle_Set g;
      Ev_log SAT_LOG_LEVEL_ERROR],
     Some (2%Z, set_tle sat t))
  else
    let s0 := set_flags (set_tle sat t) 0%Z in
    let s1 := init_variable_fields (select_ephemeris s0) in
    ([Ev_log SAT_LOG_LEVEL_DEBUG; Ev_Get_Next_Tle_Set g;
      Ev_log SAT_LOG_LEVEL_DEBUG; Ev_select_ephemeris s0;
      Ev_sat_data_init s1 None;
      propagation_event
        (set_jul_epoch s1 (Julian_Date_of_Epoch (epoch (tle s1))))],
     match normalize_lon fuel (geo_lon (snd (located s1 None))) with
     | Some (lon, _) => Some (ec, initialised s1 None lon)
     | None => None
     end).
Proof.
  unfold load_record_t. rewrite !bind_t_emit.
  destruct (Get_Next_Tle_Set g (tle sat)) as [rc t].
  destruct (negb (rc =? 1)%Z).
  - rewrite bind_t_emit. reflexivity.
  - rewrite !bind_t_emit. rewrite sat_data_init_t_eq. cbv zeta.
    unfold bind_t, ret_t.
    destruct (normalize_lon fuel _) as [[lon tr]|]; reflexivity.
Qed.

Lemma read_loop_t_found k fuel catnum fp tle_str ec sat :
  (0 < k)%nat ->
  read_loop_t k fuel catnum fp tle_str true ec sat = ([], Some (ec, sat)).
Proof.
  destruct k as [|k]; [lia|]. intros _. simpl.
  destruct (fgets (line0 tle_str) 80 fp) as [[row0|] fp1]; reflexivity.
Qed.

Lemma read_loop_t_scan fuel catnum ec sat k :
  forall fp tle_str,
    (List.length fp < k)%nat ->
    read_loop_t k fuel catnum fp tle_str false ec sat =
    match find (matches catnum) (tle_groups k fp tle_str) with
    | Some g => load_record_t fuel g ec sat
    | None => ([], Some (ec, sat))
    end.
Proof.
  induction k as [|k IH]; intros fp tle_str Hk; [lia|].
  simpl.
  destruct (fgets (line0 tle_str) 80 fp) as [[row0|] fp1] eqn:E0;
    [|reflexivity].
  apply fgets_Some in E0.
  destruct (fgets_row (line1 tle_str) fp1) as [row1 fp2] eqn:E1.
  destruct (fgets_row (line2 tle_str) fp2) as [row2 fp3] eqn:E2.
  apply fgets_row_length in E1. apply fgets_row_length in E2.
  simpl.
  destruct (matches catnum (mk_tle_buf row0 row1 row2)).
  - unfold bind_t.
    destruct (load_record_t fuel _ ec sat) as [tr [[ec' sat']|]];
      [|reflexivity].
    rewrite read_loop_t_found by lia. now rewrite app_nil_r.
  - apply IH. lia.
Qed.

Lemma sat_data_read_t_eq fuel tle_str0 catnum sat :
  sat_data_read_t fuel tle_str0 catnum sat =
  match tle_lookup catnum with
  | None => ([Ev_log SAT_LOG_LEVEL_ERROR], Some (1%Z, sat))
  | Some filename =>
      match fopen (tle_path filename) with
      | None => ([Ev_log SAT_LOG_LEVEL_ERROR], Some (3%Z, sat))
      | Some fp =>
          match find (matches catnum)
                  (tle_groups (S (List.length fp)) fp tle_str0) with
          | Some g => load_record_t fuel g 0%Z sat
          | None => ([], Some (0%Z, sat))
          end
      end
  end.
Proof.
  unfold sat_data_read_t.
  destruct (tle_lookup catnum) as [filename|]; [|reflexivity].
  destruct (fopen (tle_path filename)) as [fp|]; [|reflexivity].
  apply read_loop_t_scan. lia.
Qed.

(** The two readings agree on every run that returns, and fail
    together. *)
Lemma sat_data_init_t_returned fuel sat qth :
  returned (sat_data_init_t fuel sat qth) = sat_data_init fuel sat qth.
Proof.
  rewrite sat_data_init_t_eq, sat_data_init_eq.
  destruct (normalize_lon fuel _) as [[lon tr]|]; reflexivity.
Qed.

Lemma sat_data_read_t_returned fuel tle_str0 catnum sat :
  returned (sat_data_read_t fuel tle_str0 catnum sat) =
  sat_data_read fuel tle_str0 catnum sat.
Proof.
  rewrite sat_data_read_t_eq, sat_data_read_eq.
  destruct (tle_lookup catnum) as [filename|]; [|reflexivity].
  destruct (fopen (tle_path filename)) as [fp|]; [|reflexivity].
  destruct (find _ _) as [g|]; [|reflexivity].
  rewrite load_record_t_eq, load_record_eq.
  destruct (Get_Next_Tle_Set g (tle sat)) as [rc t].
  destruct (negb (rc =? 1)%Z); [reflexivity|]. cbv zeta.
  rewrite sat_data_init_eq.
  destruct (normalize_lon fuel _) as [[lon tr]|]; reflexivity.
Qed.

(** The calls of a read, by cases. *)
Lemma read_calls_cases fuel tle_str0 catnum sat :
  let tr := fst (sat_data_read_t fuel tle_str0 catnum sat) in
  tr = [Ev_log SAT_LOG_LEVEL_ERROR] \/ tr = [] \/
  (exists g rc t,
      Get_Next_Tle_Set g (tle sat) = (rc, t) /\ rc <> 1%Z /\
      tr = [Ev_log SAT_LOG_LEVEL_DEBUG; Ev_Get_Next_Tle_Set g;
            Ev_log SAT_LOG_LEVEL_ERROR]) \/
  (exists g t,
      Get_Next_Tle_Set g (tle sat) = (1%Z, t) /\
      let s0 := set_flags (set_tle sat t) 0%Z in
      let s1 := init_variable_fields (select_ephemeris s0) in
      tr = [Ev_log SAT_LOG_LEVEL_DEBUG; Ev_Get_Next_Tle_Set g;
            Ev_log SAT_LOG_LEVEL_DEBUG; Ev_select_ephemeris s0;
            Ev_sat_data_init s1 None;
            propagation_event
              (set_jul_epoch s1 (Julian_Date_of_Epoch (epoch (tle s1))))]).
Proof.
  cbv zeta. rewrite sat_data_read_t_eq.
  destruct (tle_lookup catnum) as [filename|]; [|now left].
  destruct (fopen (tle_path filename)) as [fp|]; [|now left].
  destruct (find _ _) as [g|]; [|right; now left].
  rewrite load_record_t_eq.
  destruct (Get_Next_Tle_Set g (tle sat)) as [rc t] eqn:Eg.
  destruct (rc =? 1)%Z eqn:Erc; simpl negb; cbv iota.
  - apply Z.eqb_eq in Erc. subst rc. do 3 right. exists g, t.
    split; [exact Eg|]. reflexivity.
  - apply Z.eqb_neq in Erc. do 2 right. left. exists g, rc, t.
    split; [exact Eg|]. split; [assumption|reflexivity].
Qed.

End RunsThatNeedNotReturn.

(** A longitude from which the loops do not lead away. *)
Lemma normalize_lon_stuck {C : Collaborators} (lon : double) :
  ((pi <? lon) = true /\ (lon <? - pi) = false /\ lon - twopi = lon)%float \/
  ((lon <? - pi) = true /\ lon + twopi = lon)%float ->
  forall fuel, normalize_lon fuel lon = None.
Proof.
  intros H fuel. unfold normalize_lon.
  destruct H as [(Hu & Hl & He)|(Hl & He)].
  - destruct fuel as [|f]; [reflexivity|].
    assert (Hr : lon_raise (S f) lon = ret lon) by (simpl; now rewrite Hl).
    rewrite Hr, bind_ret. now apply lon_lower_stuck.
  - now rewrite (lon_raise_stuck lon Hl He fuel).
Qed.

Lemma forallb_negb_map A (f : A -> bool) l :
  forallb (fun a => negb (f a)) l = forallb negb (map f l).
Proof.
  induction l as [|a l IH]; simpl; [reflexivity|]. now rewrite IH.
Qed.

Lemma catstr_of_line l tail :
  (7 <= List.length l)%nat ->
  catstr_of (text_line l ++ NUL :: tail) = catstr_of l.
Proof.
  intros H. unfold catstr_of, text_line. f_equal.
  rewrite <- app_assoc.
  apply map_ext_in. intros i Hi. apply app_nth1.
  simpl in Hi. lia.
Qed.

Section ClaimsOnEveryRun.

Context {C : Collaborators}.

Open Scope float_scope.

(** C1.  The calls of a read, whether or not the read returns: a
    validator call that accepted the record is followed by exactly the
    message, the call of [select_ephemeris] on that element set with the
    flags cleared, the call of [sat_data_init], and the propagator call.
    Every propagator call among them is preceded by such a selection, no
    propagator call coming before it, and the state the dispatch tests
    and propagates carries the flags that selection produced.  The calls
    are those for every number of loop iterations allowed, and a read
    that returns has made exactly them. *)
Theorem C1_selection_precedes_propagation fuel tle_str0 catnum sat :
  let tr := fst (sat_data_read_t fuel tle_str0 catnum sat) in
  (forall line t,
      In (Ev_Get_Next_Tle_Set line) tr ->
      Get_Next_Tle_Set line (tle sat) = (1%Z, t) ->
      let s0 := set_flags (set_tle sat t) 0%Z in
      let s1 := init_variable_fields (select_ephemeris s0) in
      tr = [Ev_log SAT_LOG_LEVEL_DEBUG; Ev_Get_Next_Tle_Set line;
            Ev_log SAT_LOG_LEVEL_DEBUG; Ev_select_ephemeris s0;
            Ev_sat_data_init s1 None;
            propagation_event
              (set_jul_epoch s1 (Julian_Date_of_Epoch (epoch (tle s1))))])
  /\
  (forall e s,
      In e tr -> propagated_state e = Some s ->
      freshly_selected sat tr e s) /\
  (forall fuel', fst (sat_data_read_t fuel' tle_str0 catnum sat) = tr) /\
  (forall r tr',
      sat_data_read fuel tle_str0 catnum sat = Some (r, tr') -> tr' = tr).
Proof.
  cbv zeta.
  pose proof (read_calls_cases fuel tle_str0 catnum sat) as Hc.
  cbv zeta in Hc.
  split; [|split; [|split]].
  - intros line t Hin Hv.
    destruct Hc as [Hc|[Hc|[(g & rc & t' & Hg & Hne & Hc)
                           |(g & t' & Hg & Hc)]]];
      rewrite Hc in Hin |- *; simpl in Hin.
    + destruct Hin as [Hin|[]]; discriminate.
    + destruct Hin.
    + destruct Hin as [Hin|[Hin|[Hin|[]]]]; try discriminate.
      injection Hin as ->. rewrite Hv in Hg. injection Hg as <- _.
      now elim Hne.
    + destruct Hin as [Hin|[Hin|[Hin|[Hin|[Hin|[Hin|[]]]]]]];
        try discriminate.
      * injection Hin as ->. rewrite Hv in Hg. injection Hg as <-.
        reflexivity.
      * unfold propagation_event in Hin.
        destruct (deep_space _) in Hin; discriminate.
  - intros e s Hin Hs.
    destruct Hc as [Hc|[Hc|[(g & rc & t & Hg & Hne & Hc)
                           |(g & t & Hg & Hc)]]];
      rewrite Hc in Hin |- *; simpl in Hin.
    + destruct Hin as [<-|[]]; discriminate.
    + destruct Hin.
    + destruct Hin as [<-|[<-|[<-|[]]]]; discriminate.
    + destruct Hin as [<-|[<-|[<-|[<-|[<-|[Hin|[]]]]]]]; try discriminate.
      subst e.
      set (s0 := set_flags (set_tle sat t) 0%Z) in *.
      set (s1 := select_ephemeris s0) in *.
      assert (Hs' : s = set_jul_epoch (init_variable_fields s1)
                          (Julian_Date_of_Epoch (epoch (tle s1)))).
      { unfold propagation_event in Hs.
        destruct (deep_space _) in Hs; simpl in Hs; now injection Hs as <-. }
      exists g, t. split; [assumption|]. cbv zeta. fold s0 s1.
      repeat split; try (subst s; reflexivity).
      * exists 1%nat, 3%nat. repeat split. lia.
      * exists 3%nat, 5%nat. repeat split. lia.
      * intros e' (i & j & Hij & Hni & Hnj).
        assert (j = 3%nat) as ->.
        { do 6 (destruct j as [|j]; simpl in Hnj; try discriminate;
                try reflexivity).
          - injection Hnj as Hnj. unfold propagation_event in Hnj.
            destruct (deep_space _) in Hnj; discriminate.
          - destruct j; discriminate. }
        do 3 (destruct i as [|i]; simpl in Hni;
              [injection Hni as <-; reflexivity|]).
        lia.
  - intros fuel'. rewrite !sat_data_read_t_eq.
    destruct (tle_lookup catnum) as [filename|]; [|reflexivity].
    destruct (fopen (tle_path filename)) as [fp|]; [|reflexivity].
    destruct (find _ _) as [g|]; [|reflexivity].
    rewrite !load_record_t_eq.
    destruct (Get_Next_Tle_Set g (tle sat)) as [rc t].
    destruct (negb (rc =? 1)%Z); reflexivity.
  - intros r tr' H. rewrite <- sat_data_read_t_returned in H.
    destruct (sat_data_read_t fuel tle_str0 catnum sat) as [tr0 [r0|]];
      simpl in H |- *; [|discriminate].
    now injection H as _ <-.
Qed.

(** An accepted record whose longitude the loops do not lead away from:
    the calls are made, and the read returns for no number of
    iterations. *)
Lemma accepted_read_stuck tle_str0 catnum sat filename fp g t :
  tle_lookup catnum = Some filename ->
  fopen (tle_path filename) = Some fp ->
  find (matches catnum) (tle_groups (S (List.length fp)) fp tle_str0)
  = Some g ->
  Get_Next_Tle_Set g (tle sat) = (1%Z, t) ->
  let s1 := init_variable_fields
              (select_ephemeris (set_flags (set_tle sat t) 0%Z)) in
  let lon := geo_lon (snd (located s1 None)) in
  ((pi <? lon) = true /\ (lon <? - pi) = false /\ lon - twopi = lon) \/
  ((lon <? - pi) = true /\ lon + twopi = lon) ->
  forall fuel,
    sat_data_read fuel tle_str0 catnum sat = None /\
    snd (sat_data_read_t fuel tle_str0 catnum sat) = None.
Proof.
  intros Hl Hf Hg Hv s1 lon Hstuck fuel.
  assert (H : snd (sat_data_read_t fuel tle_str0 catnum sat) = None).
  { rewrite sat_data_read_t_eq, Hl, Hf, Hg, load_record_t_eq, Hv.
    simpl negb. cbv iota zeta. fold s1. fold lon.
    now rewrite (normalize_lon_stuck lon Hstuck fuel). }
  split; [|exact H].
  rewrite <- sat_data_read_t_returned.
  destruct (sat_data_read_t fuel tle_str0 catnum sat) as [tr0 [r0|]];
    [discriminate H|reflexivity].
Qed.

(** ** Files of complete records *)

Lemma plain_file_matches catnum rs :
  forall k tle_str0,
    forallb plain_record rs = true ->
    forallb reaches_column_7 rs = true ->
    (List.length (file_text rs) < k)%nat ->
    map (matches catnum) (tle_groups k (file_text rs) tle_str0) =
    map (fun r => carries catnum (data_line_1 r)) rs.
Proof.
  induction rs as [|[[name l1] l2] rs IH]; intros k b Hp Hr Hk.
  - simpl. now rewrite tle_groups_at_end.
  - destruct k as [|k]; [lia|].
    simpl in Hp. apply andb_prop in Hp as [Hrec Hp].
    apply andb_prop in Hrec as [Hrec H2].
    apply andb_prop in Hrec as [H0 H1].
    cbn [forallb] in Hr. apply andb_prop in Hr as [Hr1 Hr].
    unfold reaches_column_7, data_line_1 in Hr1. cbn [fst snd] in Hr1.
    apply Nat.leb_le in Hr1.
    assert (Et : file_text ((name, l1, l2) :: rs) =
                 name ++ newline :: l1 ++ newline :: l2 ++ newline ::
                 file_text rs).
    { unfold file_text. simpl. unfold text_line.
      rewrite <- !app_assoc. reflexivity. }
    rewrite Et in Hk |- *. rewrite tle_groups_S.
    rewrite (fgets_line _ _ _ H0). unfold fgets_row.
    rewrite (fgets_line _ _ _ H1), (fgets_line _ _ _ H2).
    cbn [map]. f_equal.
    + unfold matches, catnr_of, carries, data_line_1. cbn [line1 fst snd].
      now rewrite catstr_of_line.
    + apply IH; [assumption|assumption|].
      rewrite !length_app in Hk. cbn [List.length] in Hk.
      rewrite !length_app in Hk. cbn [List.length] in Hk.
      rewrite !length_app in Hk. cbn [List.length] in Hk. lia.
Qed.

(** C9, as the code has it.  When the lookup names a file, the file
    opens and consists of complete records of three plain lines, the
    first data line of each reaching column 7, and no record carries the
    requested catalogue number in columns 3 to 7 of that line, the read
    runs to the end of the file, leaves [*sat] as it was, calls nothing
    and returns 0, whatever [tle_str] held on entry. *)
Theorem C9_unmatched_file_returns_success
    tle_str0 catnum sat filename rs :
  tle_lookup catnum = Some filename ->
  fopen (tle_path filename) = Some (file_text rs) ->
  forallb plain_record rs = true ->
  forallb reaches_column_7 rs = true ->
  forallb (fun r => negb (carries catnum (data_line_1 r))) rs = true ->
  forall fuel,
    sat_data_read fuel tle_str0 catnum sat = Some ((0%Z, sat), []) /\
    sat_data_read_t fuel tle_str0 catnum sat = ([], Some (0%Z, sat)).
Proof.
  intros Hl Hf Hp Hr Hn fuel.
  assert (Hg : forallb (fun g => negb (matches catnum g))
                 (tle_groups (S (List.length (file_text rs))) (file_text rs)
                    tle_str0) = true).
  { rewrite forallb_negb_map.
    rewrite (plain_file_matches catnum rs _ tle_str0 Hp Hr) by lia.
    now rewrite <- forallb_negb_map. }
  split.
  - exact (@unmatched_contents_return_success _ fuel tle_str0 catnum sat
             filename (file_text rs) Hl Hf Hg).
  - rewrite sat_data_read_t_eq, Hl, Hf.
    now rewrite (@find_none_of_forallb _ _ _ Hg).
Qed.

(** C10, as the code has it.  Called without an observer,
    [sat_data_init] returns exactly when its longitude loops end; it does
    so at once when [Calculate_LatLonAlt] returns a longitude that is
    neither below [-pi] nor above [pi], and then the azimuth, elevation,
    range and range rate it stores are those [Calculate_Obs] gives for
    the geodetic position (0, 0, 0), the angles through [Degrees].  On
    every return the fields hold these values, and with an observer the
    same expressions evaluated at that observer. *)
Theorem C10_null_observer_is_origin fuel sat :
  let jul := Julian_Date_of_Epoch (epoch (tle sat)) in
  let obs_set_for g :=
    snd (Calculate_Obs jul (pos (scaled sat)) (vel (scaled sat)) g) in
  let o := obs_set_for (mk_geodetic 0 0 0 0) in
  let lon := geo_lon (snd (located sat None)) in
  ((exists s' tr, sat_data_init fuel sat None = Some (s', tr)) <->
   (exists l, normalize_lon fuel lon = Some (l, []))) /\
  ((lon <? - pi) = false -> (pi <? lon) = false ->
   exists s' tr,
     sat_data_init (S fuel) sat None = Some (s', tr) /\
     az s' = Degrees (obs_az o) /\ el s' = Degrees (obs_el o) /\
     range s' = obs_range o /\ range_rate s' = obs_range_rate o) /\
  (forall s' tr,
      sat_data_init fuel sat None = Some (s', tr) ->
      az s' = Degrees (obs_az o) /\ el s' = Degrees (obs_el o) /\
      range s' = obs_range o /\ range_rate s' = obs_range_rate o) /\
  (forall q s' tr,
      sat_data_init fuel sat (Some q) = Some (s', tr) ->
      let o := obs_set_for (mk_geodetic (qth_lat q * de2ra)
                              (qth_lon q * de2ra)
                              (double_of_Z (qth_alt q) / 1000) 0) in
      az s' = Degrees (obs_az o) /\ el s' = Degrees (obs_el o) /\
      range s' = obs_range o /\ range_rate s' = obs_range_rate o).
Proof.
  cbv zeta.
  destruct (@look_angles_of_returned_call _ fuel sat) as [Hnull Hobs].
  destruct (@look_angles_of_returned_call _ (S fuel) sat) as [Hnull' _].
  cbv zeta in Hnull, Hnull', Hobs.
  split; [|split; [|split; [exact Hnull|exact Hobs]]].
  - rewrite sat_data_init_eq. split.
    + intros (s' & tr & H).
      destruct (normalize_lon fuel _) as [[l tr0]|] eqn:En; [|discriminate].
      pose proof (@normalize_lon_trace _ _ _ _ _ En) as ->. now exists l.
    + intros (l & ->). eauto.
  - intros H1 H2.
    destruct (@sat_data_init_returns _ fuel sat None H1 H2) as (s' & tr & H).
    exists s', tr. split; [exact H|]. exact (Hnull' _ _ H).
Qed.

(** X7.  With the header's [DEEP_SPACE_EPHEM_FLAG] (0x40), every call
    of [sat_data_init], returning or not, makes exactly these calls: one
    propagator, once, at time 0 -- SDP4 when bit 6 of the flags the
    structure holds on entry is set, SGP4 otherwise -- on the entry
    structure with the epoch date stored.  A call that returns has this
    trace, and the flags it returns are those the propagator left. *)
Theorem dispatch_tests_bit_6 fuel sat qth :
  DEEP_SPACE_EPHEM_FLAG = 64%Z ->
  let s1 := set_jul_epoch sat (Julian_Date_of_Epoch (epoch (tle sat))) in
  let calls :=
    [Ev_sat_data_init sat qth;
     if Z.testbit (flags sat) 6 then Ev_SDP4 s1 0 else Ev_SGP4 s1 0] in
  fst (sat_data_init_t fuel sat qth) = calls /\
  count is_propagation calls = 1%nat /\
  (forall s' tr,
      sat_data_init fuel sat qth = Some (s', tr) ->
      tr = calls /\
      flags s' =
      flags (if Z.testbit (flags sat) 6 then SDP4 s1 0 else SGP4 s1 0)).
Proof.
  intros Hflag. cbv zeta.
  assert (He : propagation_event
                 (set_jul_epoch sat (Julian_Date_of_Epoch (epoch (tle sat))))
               = if Z.testbit (flags sat) 6
                 then Ev_SDP4 (set_jul_epoch sat
                                 (Julian_Date_of_Epoch (epoch (tle sat)))) 0
                 else Ev_SGP4 (set_jul_epoch sat
                                 (Julian_Date_of_Epoch (epoch (tle sat)))) 0).
  { unfold propagation_event, deep_space. rewrite Hflag, land_bit_6.
    reflexivity. }
  split; [|split].
  - rewrite sat_data_init_t_eq. cbn [fst]. now rewrite He.
  - destruct (Z.testbit (flags sat) 6); reflexivity.
  - intros s' tr H. rewrite sat_data_init_eq in H.
    destruct (normalize_lon fuel _) as [[lon tr0]|]; [|discriminate].
    injection H as <- <-. split; [now rewrite He|].
    destruct (initialised_keeps sat qth lon) as (Hfl & _). rewrite Hfl.
    unfold propagator, deep_space. rewrite Hflag, land_bit_6.
    reflexivity.
Qed.

End ClaimsOnEveryRun.

(** * The further properties on concrete runs *)

(** The read of 25544 from the damaged file returns 2, and the trace
    holds the validator call that refused the record. *)
Lemma return_code_characterised_witness :
  exists sat' tr line,
    sat_data_read (C := Demo.damaged_store) 0 Demo.stale 25544 Demo.sat0
    = Some ((2%Z, sat'), tr) /\
    In (Ev_Get_Next_Tle_Set line) tr /\
    fst (Get_Next_Tle_Set (Collaborators := Demo.damaged_store) line
           (tle Demo.sat0)) <> 1%Z.
Proof.
  destruct (sat_data_read (C := Demo.damaged_store) 0 Demo.stale 25544
              Demo.sat0) as [[r tr]|] eqn:E; run_value E.
  destruct (@return_code_characterised Demo.damaged_store 0 Demo.stale 25544
              Demo.sat0 _ _ _ ltac:(vm_compute; reflexivity))
    as (_ & _ & _ & [H _]).
  destruct (H eq_refl) as (line & Hin & Hrc).
  eexists _, _, line. split; [reflexivity|]. split; [exact Hin|exact Hrc].
Defined.


(** The read of 20580, which no record of [stations] carries: no
    validator call, and the structure is the one passed in. *)
Lemma untouched_unless_matched_witness :
  exists code sat' tr,
    sat_data_read (C := Demo.good) 0 Demo.stale 20580 Demo.sat0
    = Some ((code, sat'), tr) /\
    count is_validation tr = 0%nat /\ sat' = Demo.sat0.
Proof.
  destruct (sat_data_read (C := Demo.good) 0 Demo.stale 20580 Demo.sat0)
    as [[r tr]|] eqn:E; run_value E.
  eexists _, _, _. split; [reflexivity|]. split; [reflexivity|].
  exact (proj1 (@untouched_unless_matched Demo.good 0 Demo.stale 20580
                  Demo.sat0 _ _ _ ltac:(vm_compute; reflexivity)) eq_refl).
Defined.

(** The read of 25544 from [stations] into a structure whose flags are
    255, and into the same structure with flags 64. *)
Lemma stale_flags_never_reach_dispatch_witness :
  sat_data_read (C := Demo.good) 2000 Demo.stale 25544
    (set_flags Demo.sat0 64) =
  sat_data_read (C := Demo.good) 2000 Demo.stale 25544 Demo.sat0.
Proof.
  destruct (find (matches (C := Demo.good) 25544)
              (tle_groups
                 (S (List.length (list_ascii_of_string Demo.stations)))
                 (list_ascii_of_string Demo.stations) Demo.stale))
    as [g|] eqn:E; vm_compute in E; [|discriminate E].
  injection E as <-.
  eapply (@stale_flags_never_reach_dispatch Demo.good 2000 Demo.stale 25544
            Demo.sat0 64 "stations.tle"
            (list_ascii_of_string Demo.stations) _ _
            eq_refl eq_refl ltac:(vm_compute; reflexivity)).
  vm_compute. reflexivity.
Defined.

(** The record of [stations], initialised: the stand-in propagator
    leaves the flags and the bookkeeping fields as they were. *)
Lemma init_keeps_propagator_fields_witness :
  exists s' tr,
    sat_data_init (C := Demo.good) 2000 Demo.iss None = Some (s', tr) /\
    jul_epoch s' = epoch (tle Demo.iss) /\ flags s' = 0%Z /\
    jul_utc s' = 0%float /\ aos s' = 0%float /\ ra s' = 0%float.
Proof.
  destruct (sat_data_init (C := Demo.good) 2000 Demo.iss None)
    as [[s' tr]|] eqn:E; run_value E.
  destruct (@init_keeps_propagator_fields Demo.good 2000 Demo.iss None _ _
              ltac:(vm_compute; reflexivity))
    as (_ & Hf & _ & Hj & Hu & _ & Ha & _ & Hr & _).
  eexists _, _. split; [reflexivity|].
  split; [exact Hj|]. split; [exact Hf|]. split; [exact Hu|].
  split; [exact Ha|exact Hr].
Defined.

(** The record of [stations], for no observer and for an observer in
    the north: the azimuths differ, the sub-satellite point does not. *)
Lemma observer_reaches_only_look_angles_witness :
  exists s1 s2 tr1 tr2,
    sat_data_init (C := Demo.good) 2000 Demo.iss None = Some (s1, tr1) /\
    sat_data_init (C := Demo.good) 2000 Demo.iss (Some Cases.north)
    = Some (s2, tr2) /\
    (az s1 =? az s2)%float = false /\
    velo s1 = velo s2 /\ orbit s1 = orbit s2 /\
    ssplon s1 = ssplon s2 /\ footprint s1 = footprint s2.
Proof.
  destruct (sat_data_init (C := Demo.good) 2000 Demo.iss None)
    as [[s1 tr1]|] eqn:E1; run_value E1.
  destruct (sat_data_init (C := Demo.good) 2000 Demo.iss (Some Cases.north))
    as [[s2 tr2]|] eqn:E2; run_value E2.
  destruct (@observer_reaches_only_look_angles Demo.good 2000 Demo.iss
              None (Some Cases.north) _ _ _ _
              ltac:(vm_compute; reflexivity) ltac:(vm_compute; reflexivity))
    as ((Hv & _ & _ & Ho & _) & H).
  destruct (H (fun t p v g => eq_refl)) as (_ & Hl & _ & Hfp & _).
  eexists _, _, _, _. split; [reflexivity|]. split; [reflexivity|].
  split; [vm_compute; reflexivity|].
  split; [exact Hv|]. split; [exact Ho|]. split; [exact Hl|exact Hfp].
Defined.

(** A longitude of 4 radians: one subtraction, and the result is above
    [-pi]. *)
Lemma one_turn_longitude_is_half_open_witness :
  exists s' tr l,
    sat_data_init (C := Demo.good) 2 (Cases.dated (-4)%float) None
    = Some (s', tr) /\
    ssplon s' = Demo.d_Degrees l /\
    l = (4 - Header.twopi_h)%float /\
    (- Header.pi_h <? l)%float = true /\ (l <=? Header.pi_h)%float = true.
Proof.
  destruct (@one_turn_longitude_is_half_open Demo.good 0 (Cases.dated (-4)%float)
              None eq_refl eq_refl
              ltac:(vm_compute; reflexivity) ltac:(vm_compute; reflexivity))
    as (s' & tr & l & Hrun & Hs & Hl & Ha & Hb).
  exists s', tr, l. split; [exact Hrun|]. split; [exact Hs|].
  split; [rewrite Hl; vm_compute; reflexivity|].
  split; [exact Ha|exact Hb].
Defined.

(** A longitude of 2^60 radians, a finite double: subtracting [twopi]
    gives 2^60 again, and 5000 iterations are as insufficient as any
    other number. *)
Lemma absorbed_turn_never_returns_witness :
  is_finite (geo_lon (snd (located (C := Demo.good)
                             (Cases.dated (-0x1p+60)%float) None))) = true /\
  sat_data_init (C := Demo.good) 5000 (Cases.dated (-0x1p+60)%float) None
  = None.
Proof.
  split; [vm_compute; reflexivity|].
  apply (@absorbed_turn_never_returns Demo.good (Cases.dated (-0x1p+60)%float)
           None).
  left. repeat split; vm_compute; reflexivity.
Defined.

(** An element set whose date is not a number: the longitude is not a
    number either, and one pass through each loop test suffices. *)
Lemma nan_longitude_is_stored_witness :
  exists s' tr,
    sat_data_init (C := Demo.good) 1 (Cases.dated nan) None = Some (s', tr) /\
    is_nan (ssplon s') = true.
Proof.
  destruct (@nan_longitude_is_stored Demo.good 0 (Cases.dated nan) None
              ltac:(vm_compute; reflexivity)) as (s' & tr & Hrun & _ & Hs).
  exists s', tr. split; [exact Hrun|]. rewrite Hs. vm_compute. reflexivity.
Defined.

(** [stations] is the text of its two records, and is read as such. *)
Lemma plain_file_is_read_by_records_witness :
  file_text Cases.station_records = list_ascii_of_string Demo.stations /\
  map rows_as_strings
    (tle_groups (S (List.length (file_text Cases.station_records)))
       (file_text Cases.station_records) Demo.stale) =
  map record_as_strings Cases.station_records.
Proof.
  split; [vm_compute; reflexivity|].
  apply (@plain_file_is_read_by_records Cases.station_records).
  - vm_compute. reflexivity.
  - apply Nat.ltb_lt. vm_compute. reflexivity.
Defined.


(** The contents examined while reading [stations] into an array of
    three rows of 80 bytes. *)
Lemma rows_stay_in_bounds_witness :
  Forall (fun g => rows_sized g /\
                   (String.length (cstr (line0 g)) <= 79)%nat /\
                   (String.length
                      (cstr (catstr_of (line1 g))) <= 5)%nat)
    (tle_groups (S (List.length (list_ascii_of_string Demo.stations)))
       (list_ascii_of_string Demo.stations) Demo.stale).
Proof.
  apply rows_stay_in_bounds. repeat split; reflexivity.
Defined.

(** * The claims on concrete runs, returning or not *)

(** C1 on a read of 25544 whose record is accepted and whose element set
    leads to the longitude 2^60: the read returns for no number of
    iterations, and its calls are the six of an accepted record, the
    sixth the propagator call, the fourth the selection. *)
Lemma C1_witness :
  (forall fuel,
      sat_data_read (C := Cases.far_store) fuel Demo.stale 25544 Demo.sat0
      = None) /\
  exists tr e s,
    fst (sat_data_read_t (C := Cases.far_store) 0 Demo.stale 25544
           Demo.sat0) = tr /\
    nth_error tr 5 = Some e /\ propagated_state e = Some s /\
    flags s = 0%Z /\
    nth_error tr 3 =
    Some (Ev_select_ephemeris
            (set_flags (set_tle Demo.sat0 (tle s)) 0%Z)) /\
    freshly_selected (C := Cases.far_store) Demo.sat0 tr e s.
Proof.
  split.
  - destruct (find (matches (C := Cases.far_store) 25544)
                (tle_groups
                   (S (List.length (list_ascii_of_string Demo.stations)))
                   (list_ascii_of_string Demo.stations) Demo.stale))
      as [g|] eqn:E; vm_compute in E; [|discriminate E].
    injection E as <-. intros fuel.
    eapply (proj1 (@accepted_read_stuck Cases.far_store Demo.stale 25544
                     Demo.sat0 "stations.tle"
                     (list_ascii_of_string Demo.stations) _ _
                     eq_refl eq_refl ltac:(vm_compute; reflexivity)
                     eq_refl _ fuel)).
    Unshelve. left. repeat split; vm_compute; reflexivity.
  - destruct (@C1_selection_precedes_propagation Cases.far_store 0
                Demo.stale 25544 Demo.sat0) as (_ & Hsel & _).
    remember (fst (sat_data_read_t (C := Cases.far_store) 0 Demo.stale
                     25544 Demo.sat0)) as tr eqn:E.
    vm_compute in E. subst tr.
    eexists _, _, _. split; [reflexivity|].
    split; [reflexivity|]. split; [reflexivity|].
    split; [reflexivity|]. split; [reflexivity|].
    apply Hsel; [do 5 right; left; reflexivity|reflexivity].
Defined.

(** C9 on the read of 20580, which the lookup places in [stations], a
    file of two complete records neither of which carries it. *)
Lemma C9_witness :
  sat_data_read (C := Demo.good) 0 Demo.stale 20580 Demo.sat0
  = Some ((0%Z, Demo.sat0), []).
Proof.
  apply (@C9_unmatched_file_returns_success Demo.good Demo.stale 20580
           Demo.sat0 "stations.tle" Cases.station_records).
  - reflexivity.
  - vm_compute. reflexivity.
  - vm_compute. reflexivity.
  - vm_compute. reflexivity.
  - vm_compute. reflexivity.
Defined.

(** C9 fails on a file whose only record has a name line of 86
    characters: no record of the file carries 25544 in columns 3 to 7 of
    its first data line, yet the second [fgets] puts the end of the name
    line into row 1, its bytes 2 to 6 read 25544, the validator is called
    and refuses, the read returns 2 and the name in [*sat] has been
    overwritten. *)
Lemma C9_overlong_line_is_matched :
  fopen (Collaborators := Cases.long_store)
    (tle_path (C := Cases.long_store) "stations.tle")
  = Some (file_text [Cases.long_record]) /\
  carries (C := Cases.long_store) 25544 (data_line_1 Cases.long_record)
  = false /\
  exists sat' tr,
    sat_data_read (C := Cases.long_store) 0 Demo.stale 25544 Demo.sat0
    = Some ((2%Z, sat'), tr) /\
    count is_validation tr = 1%nat /\
    sat_name (tle Demo.sat0) = [] /\
    String.length (cstr (sat_name (tle sat'))) = 79%nat.
Proof.
  split; [vm_compute; reflexivity|]. split; [vm_compute; reflexivity|].
  destruct (sat_data_read (C := Cases.long_store) 0 Demo.stale 25544
              Demo.sat0) as [[r tr]|] eqn:E; run_value E.
  eexists _, _. repeat split.
Qed.


(** C10 as amended, for a longitude of 1 radian: the call returns with
    one pass through each loop test, and the stand-in geometry gives the
    observer at the origin an azimuth of a quarter turn. *)
Lemma C10_witness :
  exists s' tr,
    sat_data_init (C := Demo.good) 1 (Cases.dated (-1)%float) None
    = Some (s', tr) /\
    az s' = Demo.d_Degrees (0 + 0.25 * Header.twopi_h)%float /\
    range s' = v_w (pos s').
Proof.
  destruct (@C10_null_observer_is_origin Demo.good 0
              (Cases.dated (-1)%float)) as (_ & Hret & _).
  destruct (Hret ltac:(vm_compute; reflexivity)
              ltac:(vm_compute; reflexivity))
    as (s' & tr & Hrun & Haz & _ & Hr & _).
  exists s', tr. split; [exact Hrun|]. split; [exact Haz|].
  rewrite Hr. vm_compute in Hrun. injection Hrun as <- _.
  vm_compute. reflexivity.
Defined.

(** C10 fails for a longitude of 2^60 radians, a finite double: the
    loop does not end, the call without an observer returns for no number
    of iterations, and nothing is stored. *)
Lemma C10_unending_loop_stores_nothing :
  is_finite (geo_lon (snd (located (C := Demo.good)
                             (Cases.dated (-0x1p+60)%float) None))) = true /\
  forall fuel,
    sat_data_init (C := Demo.good) fuel (Cases.dated (-0x1p+60)%float) None
    = None.
Proof.
  split; [vm_compute; reflexivity|]. intros fuel.
  rewrite sat_data_init_eq.
  rewrite (@normalize_lon_stuck Demo.good
             (geo_lon (snd (located (C := Demo.good)
                              (Cases.dated (-0x1p+60)%float) None)))
             ltac:(left; repeat split; vm_compute; reflexivity) fuel).
  reflexivity.
Qed.

(** The same longitude with bit 6 of the flags set: SDP4 has been
    called, at time 0, by a call that does not return. *)
Lemma dispatch_tests_bit_6_witness :
  fst (sat_data_init_t (C := Demo.good) 5000 Cases.far_deep None) =
  [Ev_sat_data_init Cases.far_deep None;
   Ev_SDP4 (set_jul_epoch Cases.far_deep (-0x1p+60)%float) 0%float] /\
  snd (sat_data_init_t (C := Demo.good) 5000 Cases.far_deep None) = None.
Proof.
  split; [|vm_compute; reflexivity].
  exact (proj1 (@dispatch_tests_bit_6 Demo.good 5000 Cases.far_deep None
                  eq_refl)).
Defined.
